(** * ssr: a RAID-1 logical block device with per-sector CRC32

    Shallow embedding of [ssr.c] (the "ssr" logical block device driver)
    and the properties of its request path.

    Conventions of the embedding:
    - bytes are [Byte.byte]; a page ([struct page], reached through
      [kmap]/[kmap_atomic]) is a [list byte], and the page frames form a
      list indexed by the page's number, so that two pointers to the same
      page alias;
    - a physical disk is the [list byte] of its contents, addressed in
      sectors of [KERNEL_SECTOR_SIZE] bytes;
    - a [u32] is an [N] below [2^32];
    - allocation results ([bio_alloc], [alloc_page], [kmalloc]) are inputs
      of the submission path: the code tests each of them. *)

From Stdlib Require Import NArith ZArith Lia.
From Stdlib Require Import Strings.Byte.
From stdpp Require Import base tactics option list.

Local Open Scope N_scope.

(** ** The checksum: [crc32] of <linux/crc32.h> *)

Module Crc.

(** [CRCPOLY_LE] of <linux/crc32poly.h>. *)
Definition CRCPOLY_LE : N := 0xedb88320.

(** One turn of the inner loop:
    [crc = (crc >> 1) ^ ((crc & 1) ? CRCPOLY_LE : 0)]. *)
Definition crc32_bit (crc : N) : N :=
  N.lxor (N.shiftr crc 1) (if N.testbit crc 0 then CRCPOLY_LE else 0).

(** One turn of the outer loop: [crc ^= *p++] and eight inner turns. *)
Definition crc32_byte (crc : N) (b : byte) : N :=
  N.iter 8 crc32_bit (N.lxor crc (Byte.to_N b)).

(** Modelled from the spec: [crc32], the kernel's [crc32_le] that
    <linux/crc32.h> declares, is not part of the driver's sources. The
    specification asks for "CRC-32 over the full sector-sized buffer, seed
    value 0, no finalization XOR"; this is the bit-at-a-time little-endian
    CRC-32 (polynomial [CRCPOLY_LE]) started from [seed], with no inversion
    of the seed or of the result. *)
Definition crc32 (seed : N) (p : list byte) : N :=
  fold_left crc32_byte p seed.

(** [c] fits a [u32]. *)
Definition u32 (c : N) : Prop := c < 2 ^ 32.

(** [crc32(0, buffer, size)], as [process_device] calls it. *)
Definition compute (buffer : list byte) : N := crc32 0 buffer.

(** The comparison of [process_device] ([crc_vdb != crc_vdc] is its
    negation): the checksum recomputed over [buffer] equals [checksum]. *)
Definition verify (buffer : list byte) (checksum : N) : bool :=
  compute buffer =? checksum.

(** [b ^ mask] on an [unsigned char]. *)
Definition byte_xor (b : byte) (mask : N) : byte :=
  default b (Byte.of_N (N.lxor (Byte.to_N b) mask)).

(** The buffer with bit [i] flipped: bit [i mod 8] of byte [i / 8]. *)
Definition flip_bit (buffer : list byte) (i : nat) : list byte :=
  match buffer !! (i / 8)%nat with
  | Some b => <[(i / 8)%nat := byte_xor b (2 ^ N.of_nat (i mod 8))]> buffer
  | None => buffer
  end.

End Crc.

(** ** Block layer objects *)

(** [SECTOR_SIZE] of <linux/blkdev.h>: the unit of [bi_sector]. *)
Definition SECTOR_SIZE : nat := 512.

(** [BLK_QC_T_NONE] ([-1U]), [BLK_STS_OK] and [BLK_STS_RESOURCE] of
    <linux/blk_types.h>; [EIO] of <linux/errno.h>. *)
Definition BLK_QC_T_NONE : N := 4294967295.
Definition BLK_STS_OK : N := 0.
Definition BLK_STS_RESOURCE : N := 9.
Definition EIO : Z := 5.

(** The two physical disks: [phys_bdev_vdb->bd_disk] and
    [phys_bdev_vdc->bd_disk]. *)
Inductive gendisk := VDB | VDC.

(** [bio_data_dir]: [REQ_OP_READ] or [REQ_OP_WRITE]. *)
Inductive data_dir := READ | WRITE.

(** A page is named by its frame number. *)
Abbreviation page := nat (only parsing).

Record bio_vec := Bvec {
  bv_page : page;
  bv_len : nat;
  bv_offset : nat
}.

(** The fields of [struct bio] the driver uses. [bi_io_vec] holds the
    segments in order, each inside one page; [bi_vcnt] is their number. *)
Record bio := Bio {
  bi_disk : option gendisk;
  bi_opf : data_dir;
  bi_sector : nat;
  bi_io_vec : list bio_vec;
  bi_max_vecs : nat;
  bi_status : N
}.

Definition bi_vcnt (b : bio) : nat := length (bi_io_vec b).
Definition bio_data_dir (b : bio) : data_dir := bi_opf b.

(** [bi_iter.bi_size]: the bytes the bio transfers. *)
Definition bi_size (b : bio) : nat := sum_list (bv_len <$> bi_io_vec b).

Definition set_bi_disk (g : gendisk) (b : bio) : bio :=
  Bio (Some g) (bi_opf b) (bi_sector b) (bi_io_vec b) (bi_max_vecs b) (bi_status b).
Definition set_bi_sector (s : nat) (b : bio) : bio :=
  Bio (bi_disk b) (bi_opf b) s (bi_io_vec b) (bi_max_vecs b) (bi_status b).
Definition set_bi_opf (d : data_dir) (b : bio) : bio :=
  Bio (bi_disk b) d (bi_sector b) (bi_io_vec b) (bi_max_vecs b) (bi_status b).

(** [struct ssr_work]; [buffer_from_up] is a page and an offset in it. *)
Record ssr_work := SsrWork {
  buffer_from_up : page * nat;
  bio_from_up : bio;
  data_bio_from_down : bio;
  crc32_bio_from_down : bio
}.

(** The state the driver runs in: the page frames, the contents of the two
    physical disks, the pending work of [ssr_wq] (oldest first) and the
    bios completed with [bio_endio] (oldest first). *)
Record kernel := Kernel {
  mem_map : list (list byte);
  disk_vdb : list byte;
  disk_vdc : list byte;
  ssr_wq : list ssr_work;
  ended : list bio
}.

Definition set_mem_map (m : list (list byte)) (k : kernel) : kernel :=
  Kernel m (disk_vdb k) (disk_vdc k) (ssr_wq k) (ended k).
Definition set_ssr_wq (q : list ssr_work) (k : kernel) : kernel :=
  Kernel (mem_map k) (disk_vdb k) (disk_vdc k) q (ended k).

Definition disk_of (g : gendisk) (k : kernel) : list byte :=
  match g with VDB => disk_vdb k | VDC => disk_vdc k end.
Definition set_disk (g : gendisk) (d : list byte) (k : kernel) : kernel :=
  match g with
  | VDB => Kernel (mem_map k) d (disk_vdc k) (ssr_wq k) (ended k)
  | VDC => Kernel (mem_map k) (disk_vdb k) d (ssr_wq k) (ended k)
  end.

(** ** Memory and disk transfers *)

(** The [len] bytes at [p + off]. *)
Definition region (p : list byte) (off len : nat) : list byte :=
  take len (drop off p).

(** [p] with [src] stored at [p + off]. *)
Definition splice (p : list byte) (off : nat) (src : list byte) : list byte :=
  take off p ++ src ++ drop (off + length src) p.

(** [memcpy(dst + doff, src + soff, size)] between mapped pages. *)
Definition memcpy (dst : page) (doff : nat) (src : page) (soff : nat)
    (size : nat) (m : list (list byte)) : list (list byte) :=
  match m !! src, m !! dst with
  | Some s, Some d => <[dst := splice d doff (region s soff size)]> m
  | _, _ => m
  end.

(** A read from the disk contents [d], starting at byte [pos], into the
    bio's segments. *)
Fixpoint xfer_read (d : list byte) (pos : nat) (vecs : list bio_vec)
    (m : list (list byte)) : list (list byte) :=
  match vecs with
  | [] => m
  | v :: vs =>
      let m' :=
        match m !! bv_page v with
        | Some p => <[bv_page v := splice p (bv_offset v) (region d pos (bv_len v))]> m
        | None => m
        end in
      xfer_read d (pos + bv_len v) vs m'
  end.

(** A write of the bio's segments to the disk contents [d], starting at
    byte [pos]. *)
Fixpoint xfer_write (m : list (list byte)) (pos : nat) (vecs : list bio_vec)
    (d : list byte) : list byte :=
  match vecs with
  | [] => d
  | v :: vs =>
      let d' :=
        match m !! bv_page v with
        | Some p => splice d pos (region p (bv_offset v) (bv_len v))
        | None => d
        end in
      xfer_write m (pos + bv_len v) vs d'
  end.

(** [submit_bio_wait]: the transfer is done, and 0 returned, when the bio
    lies inside the disk; it fails with [-EIO], transferring nothing, when
    it does not (or has no disk). *)
Definition submit_bio_wait (b : bio) (k : kernel) : kernel * Z :=
  match bi_disk b with
  | None => (k, (- EIO)%Z)
  | Some g =>
      let d := disk_of g k in
      let pos := (bi_sector b * SECTOR_SIZE)%nat in
      if decide (pos + bi_size b <= length d)%nat then
        match bi_opf b with
        | READ => (set_mem_map (xfer_read d pos (bi_io_vec b) (mem_map k)) k, 0%Z)
        | WRITE => (set_disk g (xfer_write (mem_map k) pos (bi_io_vec b) d) k, 0%Z)
        end
      else (k, (- EIO)%Z)
  end.

(** [bio_endio]: the bio is handed back with the status it carries. *)
Definition bio_endio (b : bio) (k : kernel) : kernel :=
  Kernel (mem_map k) (disk_vdb k) (disk_vdc k) (ssr_wq k) (ended k ++ [b]).

(** [queue_work(ssr_wq, &ssrwork->work)]. *)
Definition queue_work (w : ssr_work) (k : kernel) : kernel :=
  set_ssr_wq (ssr_wq k ++ [w]) k.

(** The results of the allocations of one [ssr_submit_bio] call, in
    program order: the two [bio_alloc], the two [alloc_page] (a new page
    comes with the bytes its frame happens to hold, [alloc_page] does not
    clear it) and the [kmalloc] of the work item. *)
Record allocs := Allocs {
  data_bio_ok : bool;
  crc32_bio_ok : bool;
  data_page_new : option (list byte);
  crc32_page_new : option (list byte);
  ssrwork_ok : bool
}.

(** [bio_alloc(GFP_NOIO, nr_iovecs)]: an empty, zeroed bio with room for
    [nr_iovecs] segments, or NULL. *)
Definition bio_alloc (ok : bool) (nr_iovecs : nat) : option bio :=
  if ok then Some (Bio None READ 0 [] nr_iovecs BLK_STS_OK) else None.

(** [alloc_page(GFP_NOIO)]: the next free frame, or NULL. *)
Definition alloc_page (new : option (list byte)) (k : kernel)
    : option (page * kernel) :=
  match new with
  | Some bytes => Some (length (mem_map k), set_mem_map (mem_map k ++ [bytes]) k)
  | None => None
  end.

(** [bio_add_page]: the segment is appended unless the bio is full. *)
Definition bio_add_page (b : bio) (p : page) (len offset : nat) : bio :=
  if decide (bi_vcnt b < bi_max_vecs b)%nat then
    Bio (bi_disk b) (bi_opf b) (bi_sector b)
        (bi_io_vec b ++ [Bvec p len offset]) (bi_max_vecs b) (bi_status b)
  else b.

(** ** Segment loops *)

(** What a turn of a loop body does: go on to the next segment, or leave
    the function ([return], or a [goto] to its exit labels). *)
Inductive flow (St R : Type) :=
  | Continue (s : St)
  | Return (r : R).
Arguments Continue {St R} s.
Arguments Return {St R} r.

(** [struct bvec_iter]: the current sector and the index of the segment. *)
Record bvec_iter := BvecIter {
  it_sector : nat;
  it_idx : nat
}.

Fixpoint for_each_from {St R : Type}
    (body : bio_vec -> bvec_iter -> St -> flow St R)
    (vecs : list bio_vec) (iter : bvec_iter) (s : St) : flow St R :=
  match vecs with
  | [] => Continue s
  | bvec :: rest =>
      match body bvec iter s with
      | Continue s' =>
          for_each_from body rest
            (BvecIter (it_sector iter + bv_len bvec / SECTOR_SIZE) (S (it_idx iter))) s'
      | Return r => Return r
      end
  end.

(** [bio_for_each_segment(bvec, bio, iter) body]. *)
Definition bio_for_each_segment {St R : Type}
    (body : bio_vec -> bvec_iter -> St -> flow St R) (b : bio) (s : St) : flow St R :=
  for_each_from body (bi_io_vec b) (BvecIter (bi_sector b) 0) s.

(** [bio_iter_iovec(bio, iter)]: the segment of [bio] that [iter] is at. *)
Definition bio_iter_iovec (b : bio) (iter : bvec_iter) : option bio_vec :=
  bi_io_vec b !! it_idx iter.

(** ** The driver *)

(** The body of the loop of [process_device], on the page frames. A
    checksum mismatch leaves the function at once. For a read,
    [buffer_from_up] is mapped from [data_bvec.bv_page]: it is the data
    page of the lower bio. *)
Definition process_segment (dir : data_dir) (crc32_bio_from_down : bio)
    (data_bvec : bio_vec) (data_iter : bvec_iter) (m : list (list byte))
    : flow (list (list byte)) (list (list byte)) :=
  match bio_iter_iovec crc32_bio_from_down data_iter with
  | None => Return m
  | Some crc32_bvec =>
      let size := bv_len data_bvec in
      let data_offset := bv_offset data_bvec in
      let crc32_offset := bv_offset crc32_bvec in
      let data_buffer := bv_page data_bvec in
      let crc32_buffer := bv_page crc32_bvec in
      match m !! data_buffer, m !! crc32_buffer with
      | Some data_bytes, Some crc32_bytes =>
          let crc_vdb := Crc.crc32 0 (region data_bytes data_offset size) in
          let crc_vdc := Crc.crc32 0 (region crc32_bytes crc32_offset size) in
          if negb (crc_vdb =? crc_vdc) then Return m
          else
            match dir with
            | READ =>
                let buffer_from_up := bv_page data_bvec in
                let m := memcpy buffer_from_up data_offset data_buffer data_offset size m in
                let m := memcpy buffer_from_up crc32_offset crc32_buffer crc32_offset size m in
                Continue m
            | WRITE =>
                let m := memcpy data_buffer data_offset data_buffer data_offset size m in
                let m := memcpy crc32_buffer crc32_offset data_buffer crc32_offset size m in
                Continue m
            end
      | _, _ => Return m
      end
  end.

(** Where a loop over the page frames leaves them, however it ends. *)
Definition flow_mem (f : flow (list (list byte)) (list (list byte)))
    : list (list byte) :=
  match f with Continue m | Return m => m end.

Definition process_device (bio_from_up data_bio_from_down crc32_bio_from_down : bio)
    (k : kernel) : kernel :=
  let dir := bio_data_dir bio_from_up in
  set_mem_map
    (flow_mem (bio_for_each_segment (process_segment dir crc32_bio_from_down)
                 data_bio_from_down (mem_map k))) k.

(** The work function. The results of the two [submit_bio_wait] are
    dropped, and [bio_from_up] is ended with the status it came with. *)
Definition ssr_handle_requests (work : ssr_work) (k : kernel) : kernel :=
  let bio_from_up := bio_from_up work in
  let data_bio_from_down := set_bi_disk VDB (data_bio_from_down work) in
  let crc32_bio_from_down := set_bi_disk VDB (crc32_bio_from_down work) in
  let k := process_device bio_from_up data_bio_from_down crc32_bio_from_down k in
  let data_bio_from_down := set_bi_disk VDC data_bio_from_down in
  let crc32_bio_from_down := set_bi_disk VDC crc32_bio_from_down in
  let k := process_device bio_from_up data_bio_from_down crc32_bio_from_down k in
  let k := fst (submit_bio_wait crc32_bio_from_down k) in
  let k := fst (submit_bio_wait data_bio_from_down k) in
  bio_endio bio_from_up k.

(** What a call of [ssr_submit_bio] gives: the state it leaves and the
    value it returns. The value is [None] when the call does not come to
    its [return]: it has given [__free_page], which dereferences its
    argument, a NULL pointer or a pointer that was never assigned, and the
    state is then the one reached at that point. *)

(** The labels [data_page_fail], [crc32_bio_fail] and [out]: the lower
    bios are put, the bio is ended and [ret] returned. *)
Definition data_page_fail (bio_from_up : bio) (ret : N) (k : kernel)
    : kernel * option N :=
  (bio_endio bio_from_up k, Some ret).

(** The labels [ssrwork_failed] and [crc32_page_fail]:
    [__free_page(crc32_page)] comes first. [crc32_page] is [None] when it
    is NULL or not yet assigned. *)
Definition crc32_page_fail (crc32_page : option page) (bio_from_up : bio)
    (ret : N) (k : kernel) : kernel * option N :=
  match crc32_page with
  | Some _ => data_page_fail bio_from_up ret k
  | None => (k, None)
  end.

(** The body of the loop of [ssr_submit_bio]. A NULL [data_page] leads to
    [data_page_fail], a NULL [crc32_page] to [crc32_page_fail] with that
    NULL, a NULL [ssrwork] to [ssrwork_failed] with the page just
    allocated. *)
Definition submit_segment (a : allocs) (bio_from_up : bio) (dir : data_dir)
    (bvec : bio_vec) (iter : bvec_iter) (st : bio * bio * kernel)
    : flow (bio * bio * kernel) (kernel * option N) :=
  let '(data_bio_from_down, crc32_bio_from_down, k) := st in
  let sector := it_sector iter in
  let offset := bv_offset bvec in
  let len := bv_len bvec in
  let buffer_from_up := bv_page bvec in
  let data_bio_from_down := set_bi_opf dir (set_bi_sector sector data_bio_from_down) in
  let crc32_bio_from_down := set_bi_opf dir (set_bi_sector sector crc32_bio_from_down) in
  match alloc_page (data_page_new a) k with
  | None => Return (data_page_fail bio_from_up BLK_STS_RESOURCE k)
  | Some (data_page, k) =>
      match alloc_page (crc32_page_new a) k with
      | None => Return (crc32_page_fail None bio_from_up BLK_STS_RESOURCE k)
      | Some (crc32_page, k) =>
          let data_bio_from_down := bio_add_page data_bio_from_down data_page len offset in
          let crc32_bio_from_down := bio_add_page crc32_bio_from_down crc32_page len offset in
          if ssrwork_ok a then
            let ssrwork :=
              SsrWork (buffer_from_up, offset) bio_from_up
                      data_bio_from_down crc32_bio_from_down in
            Return (queue_work ssrwork k, Some BLK_QC_T_NONE)
          else Return (crc32_page_fail (Some crc32_page) bio_from_up BLK_STS_RESOURCE k)
      end
  end.

(** [ssr_submit_bio]. When the loop runs out of segments, which the body
    lets happen only for a bio without segments, [ssrwork_failed] is
    reached with [ret] still [BLK_QC_T_NONE] and [crc32_page] never
    assigned. *)
Definition ssr_submit_bio (a : allocs) (bio_from_up : bio) (k : kernel)
    : kernel * option N :=
  let dir := bio_data_dir bio_from_up in
  match bio_alloc (data_bio_ok a) (bi_vcnt bio_from_up) with
  | None => data_page_fail bio_from_up BLK_STS_RESOURCE k
  | Some data_bio_from_down =>
      match bio_alloc (crc32_bio_ok a) (bi_vcnt bio_from_up) with
      | None => data_page_fail bio_from_up BLK_STS_RESOURCE k
      | Some crc32_bio_from_down =>
          match bio_for_each_segment (submit_segment a bio_from_up dir) bio_from_up
                  (data_bio_from_down, crc32_bio_from_down, k) with
          | Return r => r
          | Continue (_, _, k) => crc32_page_fail None bio_from_up BLK_QC_T_NONE k
          end
      end
  end.

(** The worker of the single-threaded [ssr_wq]: it takes the oldest work
    item and runs it to its end. *)
Definition worker_step (k : kernel) : kernel :=
  match ssr_wq k with
  | [] => k
  | work :: rest => ssr_handle_requests work (set_ssr_wq rest k)
  end.

(** [flush_workqueue(ssr_wq)]: the worker runs until nothing is pending.
    Work items queue no work, so one step per pending item does it. *)
Definition flush_workqueue (k : kernel) : kernel :=
  Nat.iter (length (ssr_wq k)) worker_step k.

(** A request through the logical device, from submission to completion. *)
Definition ssr_request (a : allocs) (bio_from_up : bio) (k : kernel) : kernel :=
  flush_workqueue (fst (ssr_submit_bio a bio_from_up k)).

(** Requests through the idle logical device, one after the other. *)
Definition ssr_requests (reqs : list (allocs * bio)) (k : kernel) : kernel :=
  fold_left (fun k r => ssr_request (fst r) (snd r) k) reqs k.

(** ** The layout of a mirror

    [ssr.h], with [KERNEL_SECTOR_SIZE], [LOGICAL_DISK_SECTORS] and
    [LOGICAL_DISK_SIZE], is not among the sources, and the driver has no
    function that computes where a checksum entry lies. The capacity is a
    parameter here, and the places are those of the specification and of
    the README: the sectors' data first, and the CRC area "immediately
    after the LOGICAL_DISK_SIZE bytes", four bytes per sector. *)

Section Layout.

Variable LOGICAL_DISK_SECTORS : nat.

(** Modelled from the spec: the sector size of [ssr.h], 512 bytes. *)
Definition KERNEL_SECTOR_SIZE : nat := SECTOR_SIZE.

(** Modelled from the spec: the size of the data region, an exact
    multiple of the sector size. *)
Definition LOGICAL_DISK_SIZE : nat := LOGICAL_DISK_SECTORS * KERNEL_SECTOR_SIZE.

(** Modelled from the spec: the Layout Translator,
    [data_offset = s * sector_size] and
    [checksum_offset = data_region_size + s * checksum_entry_size]. *)
Definition data_offset (s : nat) : nat := s * KERNEL_SECTOR_SIZE.
Definition checksum_offset (s : nat) : nat := LOGICAL_DISK_SIZE + s * 4.

(** The data and the checksum entry of sector [s] on a disk. *)
Definition sector_data (d : list byte) (s : nat) : list byte :=
  region d (data_offset s) KERNEL_SECTOR_SIZE.
Definition sector_checksum (d : list byte) (s : nat) : list byte :=
  region d (checksum_offset s) 4.

(** A stored [u32], least significant byte first. *)
Definition le32 (bytes : list byte) : N :=
  fold_right (fun b acc => Byte.to_N b + 256 * acc) 0 bytes.

(** Modelled from the spec: a mirror is valid for sector [s] when the
    stored checksum of the sector verifies against its stored data. *)
Definition mirror_valid (d : list byte) (s : nat) : bool :=
  Crc.verify (sector_data d s) (le32 (sector_checksum d s)).


End Layout.

(** ** A small device: four sectors of 512 bytes *)

Module Scenario.

Definition capacity : nat := 4.
Definition PAGE_SIZE : nat := 4096.

Definition byte_of (n : N) : byte := default "000"%byte (Byte.of_N (n mod 256)).

(** The four bytes of a [u32], least significant first. *)
Definition put_le32 (c : N) : list byte :=
  [byte_of c; byte_of (c / 256); byte_of (c / 65536); byte_of (c / 16777216)].

(** A disk of five sectors holding the given four sectors of data, their
    checksums after them, and zeros up to the end. *)
Definition mkdisk (sectors : list (list byte)) : list byte :=
  let image := concat sectors ++ concat ((fun s => put_le32 (Crc.compute s)) <$> sectors) in
  image ++ replicate (5 * SECTOR_SIZE - length image) "000"%byte.

Definition zeros : list byte := replicate SECTOR_SIZE "000"%byte.
Definition pattern : list byte := replicate SECTOR_SIZE "170"%byte.
Definition zero_page : list byte := replicate PAGE_SIZE "000"%byte.
Definition pattern_page : list byte := pattern ++ replicate (PAGE_SIZE - SECTOR_SIZE) "000"%byte.

(** Sector 2 holds the pattern 0xAA, with its checksum. *)
Definition healthy : list byte := mkdisk [zeros; zeros; pattern; zeros].

(** The same disk with the checksum entry of sector [s] overwritten. *)
Definition corrupt_checksum (s : nat) (d : list byte) : list byte :=
  splice d (checksum_offset capacity s) (replicate 4 "255"%byte).

(** The same disk with the first byte of the data of sector [s] changed. *)
Definition corrupt_data (s : nat) (d : list byte) : list byte :=
  splice d (data_offset s) ["001"%byte].

(** A request for one sector, with its buffer at the start of page [p]. *)
Definition request (dir : data_dir) (s : nat) (p : page) : bio :=
  Bio None dir s [Bvec p SECTOR_SIZE 0] 1 BLK_STS_OK.

(** Every allocation succeeds, and the new pages hold zeros. *)
Definition allocs_zero : allocs :=
  Allocs true true (Some zero_page) (Some zero_page) true.

(** Every allocation succeeds, and the new pages hold what was left in
    their frames: here the byte 0x55 throughout. *)
Definition stale_page : list byte := replicate PAGE_SIZE "085"%byte.
Definition allocs_stale : allocs :=
  Allocs true true (Some stale_page) (Some stale_page) true.

(** The first [alloc_page] fails. *)
Definition allocs_no_page : allocs :=
  Allocs true true None (Some zero_page) true.

(** The second [alloc_page] fails. *)
Definition allocs_no_crc32_page : allocs :=
  Allocs true true (Some zero_page) None true.

(** A disk whose four sectors hold zeros, with their checksums. *)
Definition blank : list byte := mkdisk [zeros; zeros; zeros; zeros].

(** A request for two sectors, the two halves of the first kilobyte of
    page [p]. *)
Definition request2 (dir : data_dir) (s : nat) (p : page) : bio :=
  Bio None dir s [Bvec p SECTOR_SIZE 0; Bvec p SECTOR_SIZE SECTOR_SIZE] 2 BLK_STS_OK.

(** The machine at rest, with one page (the caller's buffer). *)
Definition machine (vdb vdc buffer : list byte) : kernel :=
  Kernel [buffer] vdb vdc [] [].

End Scenario.

(** ** Vocabulary of the statements *)

(** Every allocation of the call succeeds. *)
Definition allocs_ok (a : allocs) : bool :=
  data_bio_ok a && crc32_bio_ok a && bool_decide (is_Some (data_page_new a))
  && bool_decide (is_Some (crc32_page_new a)) && ssrwork_ok a.

(** The call of [ssr_submit_bio] gives [__free_page] a NULL or unassigned
    pointer: both [bio_alloc] succeed, and either the bio has no segment
    or the first [alloc_page] succeeds and the second fails. *)
Definition submit_faults (a : allocs) (up : bio) : bool :=
  data_bio_ok a && crc32_bio_ok a
  && match bi_io_vec up with
     | [] => true
     | _ :: _ => bool_decide (is_Some (data_page_new a))
                 && negb (bool_decide (is_Some (crc32_page_new a)))
     end.

(** The frames below [n] hold in [m'] what they hold in [m]. *)
Definition frames_kept (n : nat) (m m' : list (list byte)) : Prop :=
  forall p : nat, (p < n)%nat -> m' !! p = m !! p.

(** The segments of the bio lie in frames from [n] on. *)
Definition pages_from (n : nat) (b : bio) : Prop :=
  Forall (fun v => (n <= bv_page v)%nat) (bi_io_vec b).

(** The bytes of its disk a bio transfers: where they start, how many. *)
Definition byte_range (b : bio) : nat * nat :=
  ((bi_sector b * SECTOR_SIZE)%nat, bi_size b).

(** The lower bio that [ssr_submit_bio] builds for the segment [bvec] of
    [up], with its page in frame [p]. *)
Definition lower_bio (up : bio) (bvec : bio_vec) (p : page) : bio :=
  Bio None (bio_data_dir up) (bi_sector up)
      [Bvec p (bv_len bvec) (bv_offset bvec)] (bi_vcnt up) BLK_STS_OK.

(** The work item it queues for that segment, the new pages being the
    frames [p] and [p + 1]. *)
Definition work_for (up : bio) (bvec : bio_vec) (p : page) : ssr_work :=
  SsrWork (bv_page bvec, bv_offset bvec) up
          (lower_bio up bvec p) (lower_bio up bvec (S p)).

(** While a write is handled: the new data page, in frame [n], holds [X]
    still, and the new checksum page, in frame [n + 1], has the size of
    [Y]. *)
Definition write_pages (X Y : list byte) (n : nat) (m : list (list byte)) : Prop :=
  m !! n = Some X /\ exists Y', m !! S n = Some Y' /\ length Y' = length Y.

(** Several bios submitted one after the other, the worker not running in
    between. *)
Definition ssr_submits (reqs : list (allocs * bio)) (k : kernel) : kernel :=
  fold_left (fun k r => fst (ssr_submit_bio (fst r) (snd r) k)) reqs k.

(** Of the bios submitted, those whose submission came to its end. *)
Definition submitted (reqs : list (allocs * bio)) : list bio :=
  snd <$> List.filter (fun r => negb (submit_faults (fst r) (snd r))) reqs.

(** While a work item is handled: the two new pages, in the frames [n] and
    [n + 1], are there and have the sizes of [X] and [Y]. *)
Definition pages_sized (X Y : list byte) (n : nat) (m : list (list byte)) : Prop :=
  exists X' Y', m !! n = Some X' /\ m !! S n = Some Y'
                /\ length X' = length X /\ length Y' = length Y.

(** ** Loading and unloading the module

    [ssr_init], [ssr_exit], [create_block_device], [delete_block_device],
    [open_disk] and [close_disk] take objects from the kernel and give
    them back. The kernel side is a ledger: what the module holds, and
    what it gave back without holding it. The outcome of each call that
    can fail is an input. *)

Module Lifecycle.

(** [ENOMEM] and [EINVAL] of <linux/errno.h>. *)
Definition ENOMEM : Z := 12.
Definition EINVAL : Z := 22.

(** What the module takes from the kernel: the workqueue
    ([create_singlethread_workqueue] / [destroy_workqueue]), the major
    number ([register_blkdev] / [unregister_blkdev]), the request queue
    ([blk_alloc_queue] / [blk_cleanup_queue]), the gendisk ([alloc_disk] /
    [put_disk]), its presence in the system ([add_disk] / [del_gendisk])
    and the two physical devices ([blkdev_get_by_path] / [blkdev_put]). *)
Inductive resource :=
  | Workqueue
  | Major
  | RequestQueue
  | Gendisk
  | DiskAdded
  | Bdev (g : gendisk).

#[global] Instance gendisk_eq_dec : EqDecision gendisk.
Proof. solve_decision. Defined.

#[global] Instance resource_eq_dec : EqDecision resource.
Proof. solve_decision. Defined.

(** The module: the ledger ([held], latest first, and [misused]), the
    fields of [logical_raid_block_device] ([dev_queue] and [dev_gd] tell
    whether the pointer is not NULL), what was set on the queue and on the
    gendisk, and the state of the request path. *)
Record driver := Driver {
  held : list resource;
  misused : list resource;
  dev_size : nat;
  dev_queue : bool;
  dev_gd : bool;
  logical_block_size : option nat;
  disk_capacity : option nat;
  io : kernel
}.

Definition set_held (l : list resource) (d : driver) : driver :=
  Driver l (misused d) (dev_size d) (dev_queue d) (dev_gd d)
         (logical_block_size d) (disk_capacity d) (io d).
Definition set_dev_size (n : nat) (d : driver) : driver :=
  Driver (held d) (misused d) n (dev_queue d) (dev_gd d)
         (logical_block_size d) (disk_capacity d) (io d).
Definition set_dev_queue (q : bool) (d : driver) : driver :=
  Driver (held d) (misused d) (dev_size d) q (dev_gd d)
         (logical_block_size d) (disk_capacity d) (io d).
Definition set_dev_gd (g : bool) (d : driver) : driver :=
  Driver (held d) (misused d) (dev_size d) (dev_queue d) g
         (logical_block_size d) (disk_capacity d) (io d).
Definition blk_queue_logical_block_size (n : nat) (d : driver) : driver :=
  Driver (held d) (misused d) (dev_size d) (dev_queue d) (dev_gd d)
         (Some n) (disk_capacity d) (io d).
Definition set_capacity (n : nat) (d : driver) : driver :=
  Driver (held d) (misused d) (dev_size d) (dev_queue d) (dev_gd d)
         (logical_block_size d) (Some n) (io d).
Definition set_io (k : kernel) (d : driver) : driver :=
  Driver (held d) (misused d) (dev_size d) (dev_queue d) (dev_gd d)
         (logical_block_size d) (disk_capacity d) k.

(** The list without the first [r] in it, if there is one. *)
Fixpoint remove_first (r : resource) (l : list resource) : option (list resource) :=
  match l with
  | [] => None
  | x :: l' => if decide (x = r) then Some l' else cons x <$> remove_first r l'
  end.

Definition acquire (r : resource) (d : driver) : driver :=
  set_held (r :: held d) d.

(** Giving back what is not held is recorded. *)
Definition release (r : resource) (d : driver) : driver :=
  match remove_first r (held d) with
  | Some l => set_held l d
  | None =>
      Driver (held d) (r :: misused d) (dev_size d) (dev_queue d) (dev_gd d)
             (logical_block_size d) (disk_capacity d) (io d)
  end.

(** How the calls that can fail turn out when the module is loaded:
    [create_singlethread_workqueue], [register_blkdev] (its result),
    [blk_alloc_queue], [alloc_disk] and the two [blkdev_get_by_path]. *)
Record boot := Boot {
  wq_ok : bool;
  register_blkdev_ret : Z;
  queue_ok : bool;
  disk_ok : bool;
  vdb_ok : bool;
  vdc_ok : bool
}.

Section Load.

(** [LOGICAL_DISK_SECTORS] of the missing [ssr.h]. *)
Variable LOGICAL_DISK_SECTORS : nat.

Definition create_block_device (e : boot) (dev : driver) : driver * Z :=
  let dev := set_dev_size (LOGICAL_DISK_SIZE LOGICAL_DISK_SECTORS) dev in
  if queue_ok e then
    let dev := set_dev_queue true (acquire RequestQueue dev) in
    let dev := blk_queue_logical_block_size KERNEL_SECTOR_SIZE dev in
    if disk_ok e then
      let dev := set_dev_gd true (acquire Gendisk dev) in
      let dev := set_capacity LOGICAL_DISK_SECTORS dev in
      let dev := acquire DiskAdded dev in
      (dev, 0%Z)
    else
      let dev := set_dev_gd false dev in
      (release RequestQueue dev, (- ENOMEM)%Z)
  else (set_dev_queue false dev, (- ENOMEM)%Z).

(** [open_disk]: whether the device was opened (the pointer is not NULL). *)
Definition open_disk (name : gendisk) (ok : bool) (d : driver) : driver * bool :=
  if ok then (acquire (Bdev name) d, true) else (d, false).

Definition close_disk (bdev : gendisk) (d : driver) : driver :=
  release (Bdev bdev) d.

Definition delete_block_device (dev : driver) : driver :=
  let dev := if dev_gd dev then release Gendisk (release DiskAdded dev) else dev in
  if dev_queue dev then release RequestQueue dev else dev.

(** The exit labels of [ssr_init]. *)
Definition out_register_blkdev (d : driver) (err : Z) : driver * Z :=
  (release Workqueue (release Major d), err).
Definition out_block_device (d : driver) (err : Z) : driver * Z :=
  out_register_blkdev (delete_block_device d) err.
Definition out_vdb_open_disk (d : driver) (err : Z) : driver * Z :=
  out_block_device (close_disk VDB d) err.

Definition ssr_init (e : boot) (d : driver) : driver * Z :=
  if negb (wq_ok e) then (d, (- ENOMEM)%Z)
  else
    let d := acquire Workqueue d in
    let err := register_blkdev_ret e in
    if (err <? 0)%Z then (release Workqueue d, err)
    else
      let d := acquire Major d in
      let '(d, err) := create_block_device e d in
      if (err <? 0)%Z then out_register_blkdev d err
      else
        let '(d, vdb) := open_disk VDB (vdb_ok e) d in
        if negb vdb then out_block_device d (- EINVAL)%Z
        else
          let '(d, vdc) := open_disk VDC (vdc_ok e) d in
          if negb vdc then out_vdb_open_disk d (- EINVAL)%Z
          else (d, 0%Z).

Definition ssr_exit (d : driver) : driver :=
  let d := set_io (flush_workqueue (io d)) d in
  let d := release Workqueue d in
  let d := delete_block_device d in
  let d := close_disk VDB d in
  let d := close_disk VDC d in
  release Major d.

End Load.

(** Every call of the boot succeeds. *)
Definition boot_ok (e : boot) : bool :=
  wq_ok e && (0 <=? register_blkdev_ret e)%Z && queue_ok e && disk_ok e
  && vdb_ok e && vdc_ok e.

(** What a loaded module holds, latest first. *)
Definition all_resources : list resource :=
  [Bdev VDC; Bdev VDB; DiskAdded; Gendisk; RequestQueue; Major; Workqueue].

(** The module before it is loaded: its variables are zeroed. *)
Definition unloaded (k : kernel) : driver :=
  Driver [] [] 0 false false None None k.

End Lifecycle.

(** ** The way into the driver *)

Module BlockLayer.
Import Lifecycle.






End BlockLayer.

(** * Properties *)

(** ** The checksum *)

Module CrcFacts.
Import Crc.

Lemma lxor_lt_pow2 (a b n : N) : a < 2 ^ n -> b < 2 ^ n -> N.lxor a b < 2 ^ n.
Proof.
  intros Ha Hb.
  destruct (N.eq_dec (N.lxor a b) 0) as [->|Hx]; [lia|].
  apply N.log2_lt_pow2; [lia|].
  eapply N.le_lt_trans; [apply N.log2_lxor|].
  destruct (N.eq_dec a 0) as [->|Ha0], (N.eq_dec b 0) as [->|Hb0].
  - exfalso. apply Hx. reflexivity.
  - rewrite N.max_r by (simpl; lia). apply N.log2_lt_pow2; lia.
  - rewrite N.max_l by (simpl; lia). apply N.log2_lt_pow2; lia.
  - apply N.max_lub_lt; apply N.log2_lt_pow2; lia.
Qed.

Lemma lxor_cancel_r (a b p : N) : N.lxor a p = N.lxor b p -> a = b.
Proof.
  intros H.
  rewrite <- (N.lxor_0_r a), <- (N.lxor_0_r b), <- (N.lxor_nilpotent p).
  rewrite <- !N.lxor_assoc. now rewrite H.
Qed.

Lemma lxor_cancel_l (a b p : N) : N.lxor p a = N.lxor p b -> a = b.
Proof. rewrite !(N.lxor_comm p). apply lxor_cancel_r. Qed.

Lemma u32_high_bit (c : N) : u32 c -> N.testbit c 32 = false.
Proof.
  intros Hc. destruct (N.eq_dec c 0) as [->|Hc0]; [reflexivity|].
  apply N.bits_above_log2. apply N.log2_lt_pow2; [lia|exact Hc].
Qed.

Lemma crc32_bit_u32 (c : N) : u32 c -> u32 (crc32_bit c).
Proof.
  intros Hc. unfold crc32_bit, u32 in *. apply lxor_lt_pow2.
  - rewrite N.shiftr_div_pow2. change (2 ^ 1) with 2.
    apply N.Div0.div_lt_upper_bound. lia.
  - destruct (N.testbit c 0); unfold CRCPOLY_LE; lia.
Qed.

(** The top bit of the polynomial records the bit shifted out. *)
Lemma crc32_bit_top (c : N) : u32 c -> N.testbit (crc32_bit c) 31 = N.testbit c 0.
Proof.
  intros Hc. unfold crc32_bit.
  rewrite N.lxor_spec, N.shiftr_spec by lia.
  change (31 + 1) with 32. rewrite (u32_high_bit c Hc).
  destruct (N.testbit c 0); reflexivity.
Qed.

Lemma crc32_bit_inj (c1 c2 : N) :
  u32 c1 -> u32 c2 -> crc32_bit c1 = crc32_bit c2 -> c1 = c2.
Proof.
  intros H1 H2 Heq.
  assert (Hlow : N.testbit c1 0 = N.testbit c2 0)
    by (rewrite <- (crc32_bit_top c1 H1), <- (crc32_bit_top c2 H2); now rewrite Heq).
  unfold crc32_bit in Heq. rewrite Hlow in Heq. apply lxor_cancel_r in Heq.
  apply N.bits_inj. intros n.
  destruct (N.eq_dec n 0) as [->|Hn]; [exact Hlow|].
  replace n with (N.pred n + 1) by lia.
  rewrite <- !N.shiftr_spec by lia. now rewrite Heq.
Qed.

Lemma iter_crc32_bit_u32 (n : nat) (c : N) : u32 c -> u32 (Nat.iter n crc32_bit c).
Proof. intros Hc. induction n as [|n IH]; simpl; auto using crc32_bit_u32. Qed.

Lemma iter_crc32_bit_inj (n : nat) (c1 c2 : N) :
  u32 c1 -> u32 c2 -> Nat.iter n crc32_bit c1 = Nat.iter n crc32_bit c2 -> c1 = c2.
Proof.
  intros H1 H2. induction n as [|n IH]; simpl; [auto|].
  intros Heq. apply IH. apply crc32_bit_inj; auto using iter_crc32_bit_u32.
Qed.

Lemma crc32_byte_unfold (c : N) (b : byte) :
  crc32_byte c b = Nat.iter 8 crc32_bit (N.lxor c (Byte.to_N b)).
Proof. reflexivity. Qed.

Lemma byte_u32 (b : byte) : u32 (Byte.to_N b).
Proof. pose proof (Byte.to_N_bounded b). unfold u32. lia. Qed.

Lemma xor_byte_u32 (c : N) (b : byte) : u32 c -> u32 (N.lxor c (Byte.to_N b)).
Proof. intros Hc. apply lxor_lt_pow2; [exact Hc|apply byte_u32]. Qed.

Lemma crc32_byte_u32 (c : N) (b : byte) : u32 c -> u32 (crc32_byte c b).
Proof.
  intros Hc. rewrite crc32_byte_unfold.
  apply iter_crc32_bit_u32, xor_byte_u32, Hc.
Qed.

Lemma to_N_inj (b1 b2 : byte) : Byte.to_N b1 = Byte.to_N b2 -> b1 = b2.
Proof.
  intros H. pose proof (Byte.of_to_N b1) as E1. pose proof (Byte.of_to_N b2) as E2.
  rewrite H in E1. congruence.
Qed.

(** Two states, or two bytes, that differ still differ after the byte is
    consumed. *)
Lemma crc32_byte_inj (c1 c2 : N) (b1 b2 : byte) :
  u32 c1 -> u32 c2 ->
  crc32_byte c1 b1 = crc32_byte c2 b2 ->
  N.lxor c1 (Byte.to_N b1) = N.lxor c2 (Byte.to_N b2).
Proof.
  intros H1 H2. rewrite !crc32_byte_unfold.
  apply iter_crc32_bit_inj; apply xor_byte_u32; assumption.
Qed.

Lemma crc32_u32 (p : list byte) (seed : N) : u32 seed -> u32 (crc32 seed p).
Proof.
  revert seed. induction p as [|b p IH]; intros seed Hs; simpl; [exact Hs|].
  apply IH, crc32_byte_u32, Hs.
Qed.

Lemma crc32_app (p q : list byte) (seed : N) :
  crc32 seed (p ++ q) = crc32 (crc32 seed p) q.
Proof. unfold crc32. apply fold_left_app. Qed.

Lemma crc32_seed_inj (p : list byte) (c1 c2 : N) :
  u32 c1 -> u32 c2 -> crc32 c1 p = crc32 c2 p -> c1 = c2.
Proof.
  revert c1 c2. induction p as [|b p IH]; intros c1 c2 H1 H2; simpl; [auto|].
  intros Heq. apply IH in Heq; auto using crc32_byte_u32.
  apply crc32_byte_inj in Heq; auto. now apply lxor_cancel_r in Heq.
Qed.

(** Two buffers that differ in one byte have different checksums. *)
Lemma crc32_one_byte (pre post : list byte) (b b' : byte) (seed : N) :
  u32 seed -> b <> b' ->
  crc32 seed (pre ++ b :: post) <> crc32 seed (pre ++ b' :: post).
Proof.
  intros Hs Hb Heq. rewrite !crc32_app in Heq. simpl in Heq.
  pose proof (crc32_u32 pre seed Hs) as Hpre.
  apply crc32_seed_inj in Heq; auto using crc32_byte_u32.
  apply crc32_byte_inj in Heq; auto.
  apply lxor_cancel_l, to_N_inj in Heq. contradiction.
Qed.

Lemma byte_xor_to_N (b : byte) (j : N) :
  j < 8 -> Byte.to_N (byte_xor b (2 ^ j)) = N.lxor (Byte.to_N b) (2 ^ j).
Proof.
  intros Hj. unfold byte_xor.
  assert (Hlt : N.lxor (Byte.to_N b) (2 ^ j) < 2 ^ 8).
  { apply lxor_lt_pow2.
    - pose proof (Byte.to_N_bounded b). change (2 ^ 8) with 256. lia.
    - apply N.pow_lt_mono_r; lia. }
  destruct (Byte.of_N (N.lxor (Byte.to_N b) (2 ^ j))) as [x|] eqn:E.
  - simpl. now apply Byte.to_of_N.
  - apply Byte.of_N_None_iff in E. change (2 ^ 8) with 256 in Hlt. lia.
Qed.

Lemma byte_xor_neq (b : byte) (j : N) : j < 8 -> byte_xor b (2 ^ j) <> b.
Proof.
  intros Hj Heq. pose proof (byte_xor_to_N b j Hj) as H. rewrite Heq in H.
  rewrite <- (N.lxor_0_r (Byte.to_N b)) in H at 1.
  apply lxor_cancel_l in H.
  pose proof (N.pow_nonzero 2 j). lia.
Qed.

(** Flipping a bit of the buffer changes exactly the byte that holds it. *)
Lemma flip_bit_split (buffer : list byte) (i : nat) :
  (i < 8 * length buffer)%nat ->
  exists pre b b' post,
    buffer = pre ++ b :: post /\ flip_bit buffer i = pre ++ b' :: post /\ b <> b'.
Proof.
  intros Hi. unfold flip_bit.
  assert (Hk : (i / 8 < length buffer)%nat) by (apply Nat.Div0.div_lt_upper_bound; lia).
  destruct (lookup_lt_is_Some_2 buffer _ Hk) as [b Hb]. rewrite Hb.
  exists (take (i / 8) buffer), b, (byte_xor b (2 ^ N.of_nat (i mod 8))),
         (drop (S (i / 8)) buffer).
  split; [symmetry; now apply take_drop_middle|].
  split; [now apply insert_take_drop|].
  intros Heq. symmetry in Heq. revert Heq. apply byte_xor_neq.
  pose proof (Nat.mod_upper_bound i 8). lia.
Qed.

End CrcFacts.

(** ** Memory and disk transfers *)

Section Transfers.
Local Open Scope nat_scope.

Lemma length_region (p : list byte) (off len : nat) :
  length (region p off len) = len `min` (length p - off).
Proof. unfold region. now rewrite length_take, length_drop. Qed.

(** Storing back what is there changes nothing, wherever it is. *)
Lemma splice_region_id (p : list byte) (off len : nat) :
  splice p off (region p off len) = p.
Proof.
  unfold splice. rewrite length_region. unfold region.
  destruct (decide (len <= length p - off)) as [Hle|Hgt].
  - rewrite Nat.min_l by lia.
    now rewrite <- drop_drop, !take_drop.
  - rewrite Nat.min_r by lia.
    rewrite (take_ge (drop off p)) by (rewrite length_drop; lia).
    rewrite (drop_ge p (off + _)) by lia.
    now rewrite app_nil_r, take_drop.
Qed.

Lemma length_splice (p src : list byte) (off : nat) :
  off + length src <= length p -> length (splice p off src) = length p.
Proof.
  intros H. unfold splice.
  rewrite !length_app, length_take, length_drop. lia.
Qed.

(** A second store of the same length at the same place replaces the
    first. *)
Lemma splice_splice (d a b : list byte) (pos : nat) :
  length a = length b -> pos + length a <= length d ->
  splice (splice d pos a) pos b = splice d pos b.
Proof.
  intros Hab Hin. unfold splice.
  assert (Ht : pos = length (take pos d)) by (rewrite length_take; lia).
  rewrite take_app_length' by exact Ht. f_equal. f_equal.
  rewrite <- Hab, (app_assoc (take pos d) a).
  apply drop_app_length'. rewrite length_app. lia.
Qed.

Lemma memcpy_length (dst doff src soff size : nat) (m : list (list byte)) :
  length (memcpy dst doff src soff size m) = length m.
Proof.
  unfold memcpy. repeat case_match; rewrite ?length_insert; done.
Qed.

Lemma memcpy_other (dst doff src soff size : nat) (m : list (list byte)) (p : nat) :
  p <> dst -> memcpy dst doff src soff size m !! p = m !! p.
Proof.
  intros Hp. unfold memcpy.
  repeat case_match; rewrite ?list_lookup_insert_ne; done.
Qed.

(** [memcpy(p + off, p + off, size)] leaves the memory as it is. *)
Lemma memcpy_self (p off size : nat) (m : list (list byte)) :
  memcpy p off p off size m = m.
Proof.
  unfold memcpy. destruct (m !! p) as [bytes|] eqn:E; [|reflexivity].
  rewrite splice_region_id. now apply list_insert_id.
Qed.

End Transfers.

(** ** The work function *)

Section Worker.
Local Open Scope nat_scope.

Lemma frames_kept_refl (n : nat) (m : list (list byte)) : frames_kept n m m.
Proof. intros p _. reflexivity. Qed.

Lemma frames_kept_trans (n : nat) (m1 m2 m3 : list (list byte)) :
  frames_kept n m1 m2 -> frames_kept n m2 m3 -> frames_kept n m1 m3.
Proof. intros H12 H23 p Hp. rewrite H23, H12; auto. Qed.

Lemma frames_kept_memcpy (n dst doff src soff size : nat) (m : list (list byte)) :
  n <= dst -> frames_kept n m (memcpy dst doff src soff size m).
Proof. intros Hn p Hp. apply memcpy_other. lia. Qed.

Lemma frames_kept_app (m extra : list (list byte)) :
  frames_kept (length m) m (m ++ extra).
Proof. intros p Hp. now apply lookup_app_l. Qed.

Lemma process_segment_frames (n : nat) (dir : data_dir) (crc32_bio : bio)
    (data_bvec : bio_vec) (iter : bvec_iter) (m : list (list byte)) :
  n <= bv_page data_bvec -> pages_from n crc32_bio ->
  frames_kept n m (flow_mem (process_segment dir crc32_bio data_bvec iter m)).
Proof.
  intros Hd Hc. unfold process_segment, bio_iter_iovec.
  destruct (bi_io_vec crc32_bio !! it_idx iter) as [crc32_bvec|] eqn:E;
    [|apply frames_kept_refl].
  assert (Hc' : n <= bv_page crc32_bvec).
  { unfold pages_from in Hc. rewrite Forall_lookup in Hc. exact (Hc _ _ E). }
  repeat case_match; simpl; try apply frames_kept_refl;
    (eapply frames_kept_trans; [|apply frames_kept_memcpy; assumption]);
    apply frames_kept_memcpy; assumption.
Qed.

Lemma process_loop_frames (n : nat) (dir : data_dir) (crc32_bio : bio)
    (vecs : list bio_vec) (iter : bvec_iter) (m : list (list byte)) :
  Forall (fun v => n <= bv_page v) vecs -> pages_from n crc32_bio ->
  frames_kept n m (flow_mem (for_each_from (process_segment dir crc32_bio) vecs iter m)).
Proof.
  intros Hv Hc. revert iter m.
  induction Hv as [|v vs Hv Hvs IH]; intros iter m; simpl; [apply frames_kept_refl|].
  pose proof (process_segment_frames n dir crc32_bio v iter m Hv Hc) as Hstep.
  destruct (process_segment dir crc32_bio v iter m) as [m'|m']; simpl in *; [|exact Hstep].
  eapply frames_kept_trans; [exact Hstep|apply IH].
Qed.

(** [process_device] touches nothing but the pages of the two lower bios. *)
Lemma process_device_frames (n : nat) (up data crc32 : bio) (k : kernel) :
  pages_from n data -> pages_from n crc32 ->
  frames_kept n (mem_map k) (mem_map (process_device up data crc32 k)).
Proof. intros Hd Hc. apply process_loop_frames; assumption. Qed.

Lemma process_device_rest (up data crc32 : bio) (k : kernel) :
  disk_vdb (process_device up data crc32 k) = disk_vdb k
  /\ disk_vdc (process_device up data crc32 k) = disk_vdc k
  /\ ssr_wq (process_device up data crc32 k) = ssr_wq k
  /\ ended (process_device up data crc32 k) = ended k.
Proof. repeat split. Qed.

Lemma xfer_read_frames (n : nat) (d : list byte) (vecs : list bio_vec)
    (pos : nat) (m : list (list byte)) :
  Forall (fun v => n <= bv_page v) vecs -> frames_kept n m (xfer_read d pos vecs m).
Proof.
  intros Hv. revert pos m.
  induction Hv as [|v vs Hv Hvs IH]; intros pos m; simpl; [apply frames_kept_refl|].
  eapply frames_kept_trans; [|apply IH].
  destruct (m !! bv_page v); [|apply frames_kept_refl].
  intros p Hp. apply list_lookup_insert_ne. lia.
Qed.

Lemma submit_bio_wait_frames (n : nat) (b : bio) (k : kernel) :
  pages_from n b -> frames_kept n (mem_map k) (mem_map (fst (submit_bio_wait b k))).
Proof.
  intros Hb. unfold submit_bio_wait.
  repeat case_match; simpl; try apply frames_kept_refl.
  - now apply xfer_read_frames.
  - destruct g; apply frames_kept_refl.
Qed.

Lemma submit_bio_wait_rest (b : bio) (k : kernel) :
  ssr_wq (fst (submit_bio_wait b k)) = ssr_wq k
  /\ ended (fst (submit_bio_wait b k)) = ended k.
Proof. unfold submit_bio_wait. repeat case_match; simpl; auto; destruct g; auto. Qed.

(** A bio sent to [/dev/vdc] leaves [/dev/vdb] as it is. *)
Lemma submit_bio_wait_vdb (b : bio) (k : kernel) :
  bi_disk b = Some VDC -> disk_vdb (fst (submit_bio_wait b k)) = disk_vdb k.
Proof. intros Hb. unfold submit_bio_wait. rewrite Hb. repeat case_match; reflexivity. Qed.

(** A read leaves the disks as they are. *)
Lemma submit_bio_wait_read (b : bio) (k : kernel) :
  bi_opf b = READ ->
  disk_vdb (fst (submit_bio_wait b k)) = disk_vdb k
  /\ disk_vdc (fst (submit_bio_wait b k)) = disk_vdc k.
Proof. intros Hb. unfold submit_bio_wait. rewrite Hb. repeat case_match; auto. Qed.

Lemma pages_from_set_bi_disk (n : nat) (g : gendisk) (b : bio) :
  pages_from n (set_bi_disk g b) <-> pages_from n b.
Proof. reflexivity. Qed.

(** The work function never writes to [/dev/vdb]: both lower bios are
    redirected to [/dev/vdc] before they are submitted. *)
Lemma handle_requests_vdb (work : ssr_work) (k : kernel) :
  disk_vdb (ssr_handle_requests work k) = disk_vdb k.
Proof.
  unfold ssr_handle_requests, bio_endio. cbn [disk_vdb].
  rewrite !submit_bio_wait_vdb by reflexivity. reflexivity.
Qed.

(** For a read it does not write to [/dev/vdc] either. *)
Lemma handle_requests_read_vdc (work : ssr_work) (k : kernel) :
  bi_opf (data_bio_from_down work) = READ ->
  bi_opf (crc32_bio_from_down work) = READ ->
  disk_vdc (ssr_handle_requests work k) = disk_vdc k.
Proof.
  intros Hd Hc. unfold ssr_handle_requests, bio_endio. cbn [disk_vdc].
  rewrite (proj2 (submit_bio_wait_read
             (set_bi_disk VDC (set_bi_disk VDB (data_bio_from_down work))) _ Hd)).
  rewrite (proj2 (submit_bio_wait_read
             (set_bi_disk VDC (set_bi_disk VDB (crc32_bio_from_down work))) _ Hc)).
  reflexivity.
Qed.

(** It ends the upper bio once, as it came, and queues nothing. *)
Lemma handle_requests_ended (work : ssr_work) (k : kernel) :
  ended (ssr_handle_requests work k) = ended k ++ [bio_from_up work]
  /\ ssr_wq (ssr_handle_requests work k) = ssr_wq k.
Proof.
  unfold ssr_handle_requests, bio_endio. cbn [ended ssr_wq].
  rewrite !(proj1 (submit_bio_wait_rest _ _)), !(proj2 (submit_bio_wait_rest _ _)).
  split; reflexivity.
Qed.

(** It touches no page but those of the two lower bios. *)
Lemma handle_requests_frames (n : nat) (work : ssr_work) (k : kernel) :
  pages_from n (data_bio_from_down work) ->
  pages_from n (crc32_bio_from_down work) ->
  frames_kept n (mem_map k) (mem_map (ssr_handle_requests work k)).
Proof.
  intros Hd Hc. unfold ssr_handle_requests, bio_endio. cbn [mem_map].
  eapply frames_kept_trans; [|apply submit_bio_wait_frames; exact Hd].
  eapply frames_kept_trans; [|apply submit_bio_wait_frames; exact Hc].
  eapply frames_kept_trans; [|apply process_device_frames; assumption].
  apply process_device_frames; assumption.
Qed.

End Worker.

(** ** The submission path *)

Section Submission.
Local Open Scope nat_scope.

Lemma allocs_ok_inv (a : allocs) :
  allocs_ok a = true ->
  exists X Y, a = Allocs true true (Some X) (Some Y) true.
Proof.
  destruct a as [[] [] [X|] [Y|] []]; cbn; try discriminate.
  intros _. now exists X, Y.
Qed.

(** With every allocation granted, the first segment is queued and the
    function returns from inside the loop. *)
Lemma submit_queued (up : bio) (k : kernel) (bvec : bio_vec)
    (rest : list bio_vec) (X Y : list byte) :
  bi_io_vec up = bvec :: rest ->
  ssr_submit_bio (Allocs true true (Some X) (Some Y) true) up k
  = (Kernel (mem_map k ++ [X; Y]) (disk_vdb k) (disk_vdc k)
            (ssr_wq k ++ [work_for up bvec (length (mem_map k))]) (ended k),
     Some BLK_QC_T_NONE).
Proof.
  intros Hv. unfold ssr_submit_bio, bio_for_each_segment. rewrite Hv.
  cbn -[BLK_QC_T_NONE]. unfold bio_add_page, bi_vcnt. cbn -[BLK_QC_T_NONE].
  rewrite Hv. cbn -[BLK_QC_T_NONE].
  unfold queue_work, set_ssr_wq, work_for, lower_bio, bi_vcnt, bio_data_dir.
  cbn -[BLK_QC_T_NONE]. rewrite Hv, length_app, <- app_assoc. cbn -[BLK_QC_T_NONE].
  replace (length (mem_map k) + 1) with (S (length (mem_map k))) by lia.
  reflexivity.
Qed.

(** In every other case nothing is queued, and at most the new pages were
    added to the memory. Either the call hands [__free_page] a pointer
    that is NULL or was never assigned, and the bio is not ended; or the
    bio is ended at once and [BLK_STS_RESOURCE] returned. *)
Lemma submit_not_queued (a : allocs) (up : bio) (k : kernel) :
  allocs_ok a = false \/ bi_io_vec up = [] ->
  exists extra,
    ssr_submit_bio a up k
    = if submit_faults a up
      then (set_mem_map (mem_map k ++ extra) k, None)
      else (bio_endio up (set_mem_map (mem_map k ++ extra) k), Some BLK_STS_RESOURCE).
Proof.
  intros H. unfold ssr_submit_bio, bio_for_each_segment, submit_faults.
  assert (Hk : set_mem_map (mem_map k ++ []) k = k)
    by (rewrite app_nil_r; now destruct k).
  destruct a as [[] [] dp cp w]; cbn -[BLK_QC_T_NONE BLK_STS_RESOURCE];
    try (exists []; now rewrite Hk).
  destruct (bi_io_vec up) as [|bvec rest] eqn:Hv; cbn -[BLK_QC_T_NONE BLK_STS_RESOURCE].
  { exists []. now rewrite Hk. }
  destruct H as [H|H]; [|discriminate].
  destruct dp as [X|]; cbn -[BLK_QC_T_NONE BLK_STS_RESOURCE];
    [|exists []; now rewrite Hk].
  destruct cp as [Y|]; cbn -[BLK_QC_T_NONE BLK_STS_RESOURCE];
    [|exists [X]; reflexivity].
  destruct w; [discriminate H|]. cbn -[BLK_QC_T_NONE BLK_STS_RESOURCE].
  exists [X; Y]. unfold data_page_fail, bio_endio, set_mem_map. cbn.
  now rewrite <- app_assoc.
Qed.

(** A bio that is queued is none of those. *)
Lemma submit_faults_queued (up : bio) (bvec : bio_vec) (rest : list bio_vec)
    (X Y : list byte) :
  bi_io_vec up = bvec :: rest ->
  submit_faults (Allocs true true (Some X) (Some Y) true) up = false.
Proof. intros Hv. unfold submit_faults. now rewrite Hv. Qed.

Lemma submit_faults_not_ok (a : allocs) (up : bio) :
  submit_faults a up = true -> allocs_ok a = false \/ bi_io_vec up = [].
Proof.
  unfold submit_faults, allocs_ok.
  destruct a as [[] [] [X|] [Y|] []], (bi_io_vec up); cbn; auto; discriminate.
Qed.

(** Whatever the allocations give, the body of the loop never goes on to
    a next segment. *)
Lemma submit_segment_returns (a : allocs) (up : bio) (dir : data_dir)
    (bvec : bio_vec) (iter : bvec_iter) (st : bio * bio * kernel) :
  exists r, submit_segment a up dir bvec iter st = Return r.
Proof.
  destruct st as [[data crc32] k]. unfold submit_segment.
  destruct (alloc_page (data_page_new a) k) as [[data_page k1]|]; [|eauto].
  destruct (alloc_page (crc32_page_new a) k1) as [[crc32_page k2]|]; [|eauto].
  destruct (ssrwork_ok a); eauto.
Qed.

(** The worker empties a queue of one item by running that item. *)
Lemma flush_one (work : ssr_work) (k : kernel) :
  ssr_wq k = [work] -> flush_workqueue k = ssr_handle_requests work (set_ssr_wq [] k).
Proof. intros H. unfold flush_workqueue. rewrite H. cbn. unfold worker_step. now rewrite H. Qed.

Lemma flush_none (k : kernel) : ssr_wq k = [] -> flush_workqueue k = k.
Proof. intros H. unfold flush_workqueue. now rewrite H. Qed.

Lemma pages_from_lower_bio (n p : nat) (up : bio) (bvec : bio_vec) :
  n <= p -> pages_from n (lower_bio up bvec p).
Proof. intros Hp. unfold pages_from. cbn. now repeat constructor. Qed.

(** A request on the idle device, when it is queued. *)
Lemma request_queued (up : bio) (k : kernel) (bvec : bio_vec)
    (rest : list bio_vec) (X Y : list byte) :
  ssr_wq k = [] -> bi_io_vec up = bvec :: rest ->
  ssr_request (Allocs true true (Some X) (Some Y) true) up k
  = ssr_handle_requests (work_for up bvec (length (mem_map k)))
      (Kernel (mem_map k ++ [X; Y]) (disk_vdb k) (disk_vdc k) [] (ended k)).
Proof.
  intros Hq Hv. unfold ssr_request.
  rewrite (submit_queued up k bvec rest X Y Hv). cbn [fst]. rewrite Hq. cbn [app].
  now rewrite (flush_one (work_for up bvec (length (mem_map k)))).
Qed.

(** A request on the idle device, when it is not queued. *)
Lemma request_not_queued (a : allocs) (up : bio) (k : kernel) :
  ssr_wq k = [] -> allocs_ok a = false \/ bi_io_vec up = [] ->
  exists extra,
    ssr_request a up k
    = if submit_faults a up
      then set_mem_map (mem_map k ++ extra) k
      else bio_endio up (set_mem_map (mem_map k ++ extra) k).
Proof.
  intros Hq H. destruct (submit_not_queued a up k H) as (extra & Hk).
  exists extra. unfold ssr_request. rewrite Hk.
  destruct (submit_faults a up); cbn [fst]; now apply flush_none.
Qed.

(** Either the one or the other. *)
Lemma request_cases (a : allocs) (up : bio) :
  (exists bvec rest X Y,
     bi_io_vec up = bvec :: rest /\ a = Allocs true true (Some X) (Some Y) true)
  \/ (allocs_ok a = false \/ bi_io_vec up = []).
Proof.
  destruct (allocs_ok a) eqn:Ha; [|right; now left].
  destruct (bi_io_vec up) as [|bvec rest]; [right; now right|].
  destruct (allocs_ok_inv a Ha) as (X & Y & ->). left. now exists bvec, rest, X, Y.
Qed.

(** No request ever writes to [/dev/vdb]. *)
Lemma request_vdb (a : allocs) (up : bio) (k : kernel) :
  ssr_wq k = [] -> disk_vdb (ssr_request a up k) = disk_vdb k.
Proof.
  intros Hq. destruct (request_cases a up) as [(bvec & rest & X & Y & Hv & ->)|H].
  - rewrite (request_queued up k bvec rest X Y Hq Hv). now rewrite handle_requests_vdb.
  - destruct (request_not_queued a up k Hq H) as (extra & ->).
    now destruct (submit_faults a up).
Qed.

(** No read ever writes to [/dev/vdc]. *)
Lemma request_read_vdc (a : allocs) (up : bio) (k : kernel) :
  ssr_wq k = [] -> bio_data_dir up = READ ->
  disk_vdc (ssr_request a up k) = disk_vdc k.
Proof.
  intros Hq Hdir. destruct (request_cases a up) as [(bvec & rest & X & Y & Hv & ->)|H].
  - rewrite (request_queued up k bvec rest X Y Hq Hv).
    now rewrite handle_requests_read_vdc.
  - destruct (request_not_queued a up k Hq H) as (extra & ->).
    now destruct (submit_faults a up).
Qed.

(** Every request leaves the queue empty, and is ended exactly once, with
    the bio as it was submitted, unless [ssr_submit_bio] stopped in
    [__free_page]: then it is not ended. *)
Lemma request_ended (a : allocs) (up : bio) (k : kernel) :
  ssr_wq k = [] ->
  ended (ssr_request a up k) = ended k ++ (if submit_faults a up then [] else [up])
  /\ ssr_wq (ssr_request a up k) = [].
Proof.
  intros Hq. destruct (request_cases a up) as [(bvec & rest & X & Y & Hv & ->)|H].
  - rewrite (request_queued up k bvec rest X Y Hq Hv).
    rewrite (submit_faults_queued up bvec rest X Y Hv).
    destruct (handle_requests_ended (work_for up bvec (length (mem_map k)))
                (Kernel (mem_map k ++ [X; Y]) (disk_vdb k) (disk_vdc k) [] (ended k)))
      as [-> ->]. split; reflexivity.
  - destruct (request_not_queued a up k Hq H) as (extra & ->).
    destruct (submit_faults a up); cbn; rewrite ?app_nil_r; split; auto.
Qed.

(** No request stores anything in a page that existed when it was
    submitted: the caller's buffer is not written. *)
Lemma request_frames (a : allocs) (up : bio) (k : kernel) :
  ssr_wq k = [] ->
  frames_kept (length (mem_map k)) (mem_map k) (mem_map (ssr_request a up k)).
Proof.
  intros Hq. destruct (request_cases a up) as [(bvec & rest & X & Y & Hv & ->)|H].
  - rewrite (request_queued up k bvec rest X Y Hq Hv).
    eapply frames_kept_trans; [apply (frames_kept_app _ [X; Y])|].
    apply (handle_requests_frames (length (mem_map k))
             (work_for up bvec (length (mem_map k)))
             (Kernel (mem_map k ++ [X; Y]) (disk_vdb k) (disk_vdc k) [] (ended k)));
      apply pages_from_lower_bio; lia.
  - destruct (request_not_queued a up k Hq H) as (extra & ->).
    destruct (submit_faults a up); apply frames_kept_app.
Qed.

End Submission.

(** ** What a write stores *)

Section WriteOne.
Local Open Scope nat_scope.

(** A write of one segment to [/dev/vdc]. *)
Lemma submit_write_one (b : bio) (k : kernel) (v : bio_vec) (p : list byte) :
  bi_disk b = Some VDC -> bi_opf b = WRITE -> bi_io_vec b = [v] ->
  mem_map k !! bv_page v = Some p ->
  fst (submit_bio_wait b k)
  = if decide (bi_sector b * SECTOR_SIZE + bv_len v <= length (disk_vdc k))
    then set_disk VDC (splice (disk_vdc k) (bi_sector b * SECTOR_SIZE)
                         (region p (bv_offset v) (bv_len v))) k
    else k.
Proof.
  intros Hg Hop Hv Hp. unfold submit_bio_wait, bi_size. rewrite Hg, Hop, Hv.
  cbn [fmap list_fmap sum_list disk_of xfer_write]. rewrite Nat.add_0_r, Hp.
  now destruct (decide _).
Qed.

End WriteOne.

Section WritePath.
Local Open Scope nat_scope.

Variables (up : bio) (bvec : bio_vec) (X Y : list byte) (n : nat).
Hypothesis Hdir : bio_data_dir up = WRITE.
Hypothesis HX : bv_offset bvec + bv_len bvec <= length X.
Hypothesis HY : bv_offset bvec + bv_len bvec <= length Y.

Lemma length_region_X : length (region X (bv_offset bvec) (bv_len bvec)) = bv_len bvec.
Proof. rewrite length_region. lia. Qed.

(** For a write, [process_device] copies at most the data page onto the
    checksum page; the data page is not changed. *)
Lemma process_device_write (g : gendisk) (k : kernel) :
  write_pages X Y n (mem_map k) ->
  write_pages X Y n (mem_map (process_device up (set_bi_disk g (lower_bio up bvec n))
                          (set_bi_disk g (lower_bio up bvec (S n))) k)).
Proof.
  intros (Hn & Y' & HSn & HlenY). unfold process_device, bio_for_each_segment.
  rewrite Hdir. cbn. unfold process_segment, bio_iter_iovec. cbn.
  rewrite Hn, HSn.
  destruct (negb _); cbn; [split; [exact Hn|now exists Y']|].
  rewrite memcpy_self. unfold memcpy. rewrite Hn, HSn. split.
  - rewrite list_lookup_insert_ne by lia. exact Hn.
  - eexists. split.
    + apply list_lookup_insert_eq. now apply lookup_lt_Some in HSn.
    + rewrite length_splice; [exact HlenY|]. rewrite length_region_X. lia.
Qed.

(** The two lower bios are written to the same sector of [/dev/vdc], the
    checksum bio first: what stays there is the new data page. *)
Lemma handle_requests_write (k : kernel) :
  write_pages X Y n (mem_map k) ->
  disk_vdc (ssr_handle_requests (work_for up bvec n) k)
  = if decide (bi_sector up * SECTOR_SIZE + bv_len bvec <= length (disk_vdc k))
    then splice (disk_vdc k) (bi_sector up * SECTOR_SIZE)
                (region X (bv_offset bvec) (bv_len bvec))
    else disk_vdc k.
Proof.
  intros Hk. unfold ssr_handle_requests, bio_endio. cbn [disk_vdc].
  cbn [bio_from_up data_bio_from_down crc32_bio_from_down work_for].
  pose proof (process_device_write VDB k Hk) as H1.
  set (k1 := process_device up _ _ k) in *.
  pose proof (process_device_write VDC k1 H1) as H2.
  change (set_bi_disk VDC (set_bi_disk VDB (lower_bio up bvec n)))
    with (set_bi_disk VDC (lower_bio up bvec n)).
  change (set_bi_disk VDC (set_bi_disk VDB (lower_bio up bvec (S n))))
    with (set_bi_disk VDC (lower_bio up bvec (S n))).
  set (k2 := process_device up _ _ k1) in *.
  assert (Hd2 : disk_vdc k2 = disk_vdc k) by reflexivity.
  destruct H2 as (Hn & Y' & HSn & HlenY).
  assert (HlenR : length (region Y' (bv_offset bvec) (bv_len bvec)) = bv_len bvec)
    by (rewrite length_region; lia).
  rewrite (submit_write_one (set_bi_disk VDC (lower_bio up bvec (S n))) k2
             (Bvec (S n) (bv_len bvec) (bv_offset bvec)) Y')
    by (auto; apply Hdir).
  cbn [bi_sector set_bi_disk lower_bio bv_len bv_offset]. rewrite Hd2.
  destruct (decide (bi_sector up * SECTOR_SIZE + bv_len bvec <= length (disk_vdc k)))
    as [Hin|Hout].
  - rewrite (submit_write_one (set_bi_disk VDC (lower_bio up bvec n)) _
               (Bvec n (bv_len bvec) (bv_offset bvec)) X)
      by (auto; apply Hdir).
    cbn [bi_sector set_bi_disk lower_bio bv_len bv_offset set_disk disk_vdc].
    rewrite length_splice by (rewrite HlenR; exact Hin).
    rewrite decide_True by exact Hin. cbn [set_disk disk_vdc].
    apply splice_splice; rewrite HlenR; [now rewrite length_region_X|exact Hin].
  - rewrite (submit_write_one (set_bi_disk VDC (lower_bio up bvec n)) _
               (Bvec n (bv_len bvec) (bv_offset bvec)) X)
      by (auto; apply Hdir).
    cbn [bi_sector set_bi_disk lower_bio bv_len bv_offset]. rewrite Hd2.
    rewrite decide_False by exact Hout. exact Hd2.
Qed.

End WritePath.

Section WriteRequest.
Local Open Scope nat_scope.

(** A write through the idle device: [/dev/vdc] receives, at the sector of
    the request, the bytes the new data page came with. *)
Lemma request_write_vdc (up : bio) (k : kernel) (bvec : bio_vec)
    (rest : list bio_vec) (X Y : list byte) :
  ssr_wq k = [] -> bi_io_vec up = bvec :: rest -> bio_data_dir up = WRITE ->
  bv_offset bvec + bv_len bvec <= length X ->
  bv_offset bvec + bv_len bvec <= length Y ->
  disk_vdc (ssr_request (Allocs true true (Some X) (Some Y) true) up k)
  = if decide (bi_sector up * SECTOR_SIZE + bv_len bvec <= length (disk_vdc k))
    then splice (disk_vdc k) (bi_sector up * SECTOR_SIZE)
                (region X (bv_offset bvec) (bv_len bvec))
    else disk_vdc k.
Proof.
  intros Hq Hv Hdir HX HY. rewrite (request_queued up k bvec rest X Y Hq Hv).
  rewrite (handle_requests_write up bvec X Y (length (mem_map k)) Hdir HX HY);
    [reflexivity|].
  cbn [mem_map]. split.
  - rewrite lookup_app_r by lia. now rewrite Nat.sub_diag.
  - exists Y. split; [|reflexivity].
    rewrite lookup_app_r by lia.
    now replace (S (length (mem_map k)) - length (mem_map k)) with 1 by lia.
Qed.

End WriteRequest.

(** ** Loading, and the way into the driver *)

Section Gate.
Import Lifecycle BlockLayer.

(** The tests [err < 0] of [ssr_init] on the values it can meet. *)
Lemma enomem_negative : (- (12) <? 0)%Z = true.
Proof. reflexivity. Qed.

Lemma zero_not_negative : (0 <? 0)%Z = false.
Proof. reflexivity. Qed.

Ltac run_init :=
  cbn; rewrite ?enomem_negative, ?zero_not_negative; cbn.



End Gate.

(** * The claims *)

Section Claims.
Local Open Scope nat_scope.
Import Scenario.

(** The model of [crc32] agrees with the check value of CRC-32: seeded
    with [~0] and inverted at the end, "123456789" gives [0xCBF43926]. *)
Example crc32_check_value :
  N.lxor (Crc.crc32 0xFFFFFFFF ["1"; "2"; "3"; "4"; "5"; "6"; "7"; "8"; "9"]%byte)
         0xFFFFFFFF = 0xCBF43926%N.
Proof. vm_compute. reflexivity. Qed.

(** C7. For every buffer, verifying it against the checksum computed over
    it ([crc32] with seed 0, nothing applied to the result) succeeds, and
    after any single bit of the buffer is flipped the verification against
    the original checksum fails. *)
Theorem checksum_round_trip (buffer : list byte) :
  Crc.verify buffer (Crc.compute buffer) = true
  /\ forall i : nat, i < 8 * length buffer ->
       Crc.verify (Crc.flip_bit buffer i) (Crc.compute buffer) = false.
Proof.
  unfold Crc.verify, Crc.compute. split; [apply N.eqb_refl|].
  intros i Hi. apply N.eqb_neq.
  destruct (CrcFacts.flip_bit_split buffer i Hi) as (pre & b & b' & post & Hb & Hf & Hne).
  rewrite Hf. rewrite Hb at 1.
  apply CrcFacts.crc32_one_byte; [unfold Crc.u32; lia|congruence].
Qed.

Lemma checksum_round_trip_witness :
  Crc.verify pattern (Crc.compute pattern) = true
  /\ Crc.verify (Crc.flip_bit pattern 9) (Crc.compute pattern) = false.
Proof.
  destruct (checksum_round_trip pattern) as [Hsame Hflip].
  split; [exact Hsame|]. apply Hflip. vm_compute. lia.
Defined.

(** C8. A read of a sector on which the checksums of both mirrors verify
    writes to neither mirror: after any number of reads both disks, data
    and checksum areas alike, are as they were. *)
Theorem read_healthy_writes_nothing (cap s : nat) (reads : list (allocs * bio))
    (k : kernel) :
  ssr_wq k = [] ->
  Forall (fun r => bio_data_dir (snd r) = READ) reads ->
  mirror_valid cap (disk_vdb k) s = true ->
  mirror_valid cap (disk_vdc k) s = true ->
  disk_vdb (ssr_requests reads k) = disk_vdb k
  /\ disk_vdc (ssr_requests reads k) = disk_vdc k.
Proof.
  intros Hq Hreads _ _. revert k Hq.
  induction Hreads as [|[a up] reads Hup _ IH]; intros k Hq; [split; reflexivity|].
  cbn [ssr_requests fold_left fst snd] in *.
  destruct (IH (ssr_request a up k)) as [Hb Hc].
  - apply request_ended, Hq.
  - unfold ssr_requests in Hb, Hc. rewrite Hb, Hc.
    split; [apply request_vdb, Hq|apply request_read_vdc; assumption].
Qed.

Lemma read_healthy_writes_nothing_witness :
  let k := machine healthy healthy zero_page in
  let reads := [(allocs_zero, request READ 2 0); (allocs_stale, request READ 2 0)] in
  disk_vdb (ssr_requests reads k) = disk_vdb k
  /\ disk_vdc (ssr_requests reads k) = disk_vdc k.
Proof.
  apply (read_healthy_writes_nothing capacity 2).
  - reflexivity.
  - repeat constructor.
  - vm_compute. reflexivity.
  - vm_compute. reflexivity.
Defined.

(** C1 (not met by the driver). The claim: when exactly one mirror's
    stored checksum fails to verify, a read returns the data of the other
    mirror and leaves the two mirrors bit-identical for that sector. What
    [ssr_handle_requests] does for a read instead: it writes to neither
    disk, so the sector's data and checksum entry still differ between the
    mirrors afterwards, and it stores nothing in any page that existed
    when the read was submitted, the caller's buffer among them. *)
Theorem read_one_corrupt_mirror (cap s : nat) (a : allocs) (up : bio) (k : kernel) :
  ssr_wq k = [] ->
  bio_data_dir up = READ ->
  mirror_valid cap (disk_vdb k) s <> mirror_valid cap (disk_vdc k) s ->
  let k' := ssr_request a up k in
  disk_vdb k' = disk_vdb k
  /\ disk_vdc k' = disk_vdc k
  /\ (sector_data (disk_vdb k') s, sector_checksum cap (disk_vdb k') s)
     <> (sector_data (disk_vdc k') s, sector_checksum cap (disk_vdc k') s)
  /\ frames_kept (length (mem_map k)) (mem_map k) (mem_map k').
Proof.
  intros Hq Hdir Hone k'. subst k'.
  rewrite (request_vdb a up k Hq), (request_read_vdc a up k Hq Hdir).
  repeat split; [|apply request_frames, Hq].
  intros Heq. apply Hone. unfold mirror_valid.
  injection Heq as -> ->. reflexivity.
Qed.

(** The device of the scenario: sector 2 holds 0xAA on both disks, and its
    checksum entry on [/dev/vdc] is overwritten. The read of sector 2
    leaves the caller's page of zeros as it was and the entry as wrong as
    it was. *)
Lemma read_one_corrupt_mirror_witness :
  let k := machine healthy (corrupt_checksum 2 healthy) zero_page in
  let k' := ssr_request allocs_zero (request READ 2 0) k in
  (disk_vdb k' = disk_vdb k
   /\ disk_vdc k' = disk_vdc k
   /\ (sector_data (disk_vdb k') 2, sector_checksum capacity (disk_vdb k') 2)
      <> (sector_data (disk_vdc k') 2, sector_checksum capacity (disk_vdc k') 2)
   /\ frames_kept 1 (mem_map k) (mem_map k'))
  /\ mirror_valid capacity (disk_vdb k) 2 = true
  /\ sector_data (disk_vdb k) 2 = pattern
  /\ mirror_valid capacity (disk_vdc k') 2 = false
  /\ mem_map k' !! 0 = Some zero_page.
Proof.
  split.
  - apply (read_one_corrupt_mirror capacity 2 allocs_zero (request READ 2 0)
             (machine healthy (corrupt_checksum 2 healthy) zero_page)).
    + reflexivity.
    + reflexivity.
    + vm_compute. discriminate.
  - vm_compute. repeat split; reflexivity.
Defined.

(** C2 (not met by the driver). The claim: a read after a write of [D] to
    the same sector returns [D]. What the driver does instead: whatever
    was written before, a read stores nothing in the pages that exist when
    it is submitted, so the reader's buffer keeps its old bytes; and no
    request has written to [/dev/vdb]. *)
Theorem write_then_read (a_w a_r : allocs) (up_w up_r : bio) (k : kernel) :
  ssr_wq k = [] ->
  bio_data_dir up_r = READ ->
  let k1 := ssr_request a_w up_w k in
  let k2 := ssr_request a_r up_r k1 in
  frames_kept (length (mem_map k1)) (mem_map k1) (mem_map k2)
  /\ disk_vdb k2 = disk_vdb k
  /\ disk_vdc k2 = disk_vdc k1.
Proof.
  intros Hq Hdir k1 k2. subst k1 k2.
  pose proof (proj2 (request_ended a_w up_w k Hq)) as Hq1.
  split; [apply request_frames, Hq1|].
  split; [now rewrite !request_vdb|now apply request_read_vdc].
Qed.

(** The device of the scenario, blank: sector 2 is written from page 0,
    which holds 0xAA, and read back into page 1, which holds zeros. Page 1
    holds zeros afterwards, and sector 2 of [/dev/vdc] the stale bytes of
    the page the write allocated. *)
Lemma write_then_read_witness :
  let k := Kernel [pattern_page; zero_page] blank blank [] [] in
  let k1 := ssr_request allocs_stale (request WRITE 2 0) k in
  let k2 := ssr_request allocs_zero (request READ 2 1) k1 in
  (frames_kept (length (mem_map k1)) (mem_map k1) (mem_map k2)
   /\ disk_vdb k2 = disk_vdb k
   /\ disk_vdc k2 = disk_vdc k1)
  /\ mem_map k2 !! 1 = Some zero_page
  /\ region zero_page 0 SECTOR_SIZE <> pattern
  /\ sector_data (disk_vdc k2) 2 = region stale_page 0 SECTOR_SIZE
  /\ bi_status <$> ended k2 = [BLK_STS_OK; BLK_STS_OK]%N.
Proof.
  split.
  - apply (write_then_read allocs_stale allocs_zero (request WRITE 2 0) (request READ 2 1)
             (Kernel [pattern_page; zero_page] blank blank [] [])); reflexivity.
  - vm_compute. repeat split; try reflexivity. discriminate.
Defined.

(** C3 (not met by the driver). The claim: a write puts the caller's
    payload at the data offset and its checksum at the checksum offset of
    both mirrors. What the driver does instead: [/dev/vdb] receives
    nothing, and [/dev/vdc] receives, at the data offset only, the bytes
    the newly allocated data page came with, whatever the payload is. *)
Theorem write_reaches_one_mirror (up : bio) (k : kernel) (bvec : bio_vec)
    (rest : list bio_vec) (X Y : list byte) :
  ssr_wq k = [] ->
  bi_io_vec up = bvec :: rest ->
  bio_data_dir up = WRITE ->
  bv_offset bvec + bv_len bvec <= length X ->
  bv_offset bvec + bv_len bvec <= length Y ->
  bi_sector up * SECTOR_SIZE + bv_len bvec <= length (disk_vdc k) ->
  let k' := ssr_request (Allocs true true (Some X) (Some Y) true) up k in
  disk_vdb k' = disk_vdb k
  /\ disk_vdc k' = splice (disk_vdc k) (bi_sector up * SECTOR_SIZE)
                     (region X (bv_offset bvec) (bv_len bvec)).
Proof.
  intros Hq Hv Hdir HX HY Hin k'. subst k'. split; [apply request_vdb, Hq|].
  rewrite (request_write_vdc up k bvec rest X Y Hq Hv Hdir HX HY).
  now rewrite decide_True.
Qed.

(** The blank device of the scenario: sector 2 is written from a page that
    holds 0xAA. [/dev/vdb] is as it was; sector 2 of [/dev/vdc] holds the
    stale bytes of the new page, and its checksum entry, not written, no
    longer verifies. *)
Lemma write_reaches_one_mirror_witness :
  let k := machine blank blank pattern_page in
  let k' := ssr_request allocs_stale (request WRITE 2 0) k in
  (disk_vdb k' = disk_vdb k
   /\ disk_vdc k' = splice (disk_vdc k) (2 * SECTOR_SIZE) (region stale_page 0 SECTOR_SIZE))
  /\ sector_data (disk_vdb k') 2 = zeros
  /\ sector_data (disk_vdc k') 2 <> pattern
  /\ sector_checksum capacity (disk_vdc k') 2 = sector_checksum capacity (disk_vdc k) 2
  /\ mirror_valid capacity (disk_vdc k') 2 = false.
Proof.
  split.
  - apply (write_reaches_one_mirror (request WRITE 2 0) (machine blank blank pattern_page)
             (Bvec 0 SECTOR_SIZE 0) [] stale_page stale_page);
      try reflexivity; vm_compute; lia.
  - vm_compute. repeat split; try reflexivity. discriminate.
Defined.

(** C4 (not met by the driver). The claim: when both mirrors fail
    verification the read fails with an error and modifies neither mirror.
    What the driver does instead: neither mirror is modified indeed, but
    no error is ever delivered. The bio is ended with the status it was
    submitted with, so a read submitted with [BLK_STS_OK] completes as a
    success; on the one path where it is not ended, [ssr_submit_bio]
    having stopped in [__free_page], it is not completed at all. *)
Theorem read_both_corrupt (cap s : nat) (a : allocs) (up : bio) (k : kernel) :
  ssr_wq k = [] ->
  bio_data_dir up = READ ->
  bi_status up = BLK_STS_OK ->
  mirror_valid cap (disk_vdb k) s = false ->
  mirror_valid cap (disk_vdc k) s = false ->
  let k' := ssr_request a up k in
  bi_status <$> ended k'
  = (bi_status <$> ended k) ++ (if submit_faults a up then [] else [BLK_STS_OK])
  /\ disk_vdb k' = disk_vdb k
  /\ disk_vdc k' = disk_vdc k.
Proof.
  intros Hq Hdir Hst _ _ k'. subst k'.
  rewrite (proj1 (request_ended a up k Hq)), fmap_app.
  split; [|split; [apply request_vdb, Hq|now apply request_read_vdc]].
  destruct (submit_faults a up); cbn [fmap list_fmap]; [reflexivity|].
  now rewrite Hst.
Qed.

(** The device of the scenario with the data of sector 0 damaged on both
    disks: the read of sector 0 is ended once, with [BLK_STS_OK]. *)
Lemma read_both_corrupt_witness :
  let k := machine (corrupt_data 0 healthy) (corrupt_data 0 healthy) zero_page in
  let k' := ssr_request allocs_zero (request READ 0 0) k in
  bi_status <$> ended k' = (bi_status <$> ended k) ++ [BLK_STS_OK]
  /\ disk_vdb k' = disk_vdb k
  /\ disk_vdc k' = disk_vdc k.
Proof.
  apply (read_both_corrupt capacity 0 allocs_zero (request READ 0 0)
           (machine (corrupt_data 0 healthy) (corrupt_data 0 healthy) zero_page));
    vm_compute; reflexivity.
Defined.

(** C5 (not met by the driver). The claim: the data of sector [s] is
    transferred at byte [s * sector_size] and its checksum at byte
    [data_region_size + s * 4], two disjoint places. What
    [ssr_submit_bio] does instead: the data bio and the checksum bio get
    the same [bi_sector] and the same length, so both transfer the very
    same bytes, which start in the data area, below the place of the
    checksum entry. *)
Theorem checksum_bio_offset (cap : nat) (up : bio) (k : kernel) (bvec : bio_vec)
    (rest : list bio_vec) (X Y : list byte) :
  bi_io_vec up = bvec :: rest ->
  bi_sector up < cap ->
  exists work,
    ssr_wq (fst (ssr_submit_bio (Allocs true true (Some X) (Some Y) true) up k))
    = ssr_wq k ++ [work]
    /\ byte_range (data_bio_from_down work) = (data_offset (bi_sector up), bv_len bvec)
    /\ byte_range (crc32_bio_from_down work) = (data_offset (bi_sector up), bv_len bvec)
    /\ fst (byte_range (crc32_bio_from_down work)) < checksum_offset cap (bi_sector up).
Proof.
  intros Hv Hs. rewrite (submit_queued up k bvec rest X Y Hv). cbn [fst ssr_wq].
  eexists. split; [reflexivity|].
  unfold byte_range, bi_size, data_offset, checksum_offset, LOGICAL_DISK_SIZE,
    KERNEL_SECTOR_SIZE, SECTOR_SIZE.
  cbn. rewrite Nat.add_0_r. repeat split. lia.
Qed.

Lemma checksum_bio_offset_witness :
  exists work,
    ssr_wq (fst (ssr_submit_bio allocs_zero (request READ 2 0)
                   (machine healthy healthy zero_page)))
    = [work]
    /\ byte_range (data_bio_from_down work) = (1024, 512)
    /\ byte_range (crc32_bio_from_down work) = (1024, 512)
    /\ fst (byte_range (crc32_bio_from_down work)) < checksum_offset capacity 2.
Proof.
  apply (checksum_bio_offset capacity (request READ 2 0)
           (machine healthy healthy zero_page) (Bvec 0 SECTOR_SIZE 0) []
           zero_page zero_page).
  - reflexivity.
  - vm_compute. lia.
Defined.



(** C9, as the driver has it. For a bio with at least one segment,
    [ssr_submit_bio] leaves its loop in the first turn: the body ends in a
    [return] or a [goto] on every path. When every allocation succeeds it
    queues exactly one work item and returns [BLK_QC_T_NONE] without
    ending the bio; the two lower bios of the item hold one segment each,
    of the length and offset of the first segment of the bio and at its
    first sector, whatever the later segments are; and the work function
    ends the bio as it was submitted. When a [bio_alloc], the first
    [alloc_page] or the [kmalloc] fails it queues nothing, ends the bio at
    once and returns [BLK_STS_RESOURCE]. The one path that gives
    [__free_page] a NULL pointer, the second [alloc_page] failing after
    the first, is left out. *)
Theorem submit_first_segment_only (a : allocs) (up : bio) (k : kernel)
    (bvec : bio_vec) (rest : list bio_vec) :
  bi_io_vec up = bvec :: rest ->
  submit_faults a up = false ->
  let r := ssr_submit_bio a up k in
  let n := length (mem_map k) in
  (forall st, exists res,
     submit_segment a up (bio_data_dir up) bvec (BvecIter (bi_sector up) 0) st
     = Return res)
  /\
  if allocs_ok a
  then snd r = Some BLK_QC_T_NONE
       /\ ended (fst r) = ended k
       /\ exists work,
            ssr_wq (fst r) = ssr_wq k ++ [work]
            /\ bio_from_up work = up
            /\ bi_sector (data_bio_from_down work) = bi_sector up
            /\ bi_sector (crc32_bio_from_down work) = bi_sector up
            /\ bi_io_vec (data_bio_from_down work)
               = [Bvec n (bv_len bvec) (bv_offset bvec)]
            /\ bi_io_vec (crc32_bio_from_down work)
               = [Bvec (S n) (bv_len bvec) (bv_offset bvec)]
            /\ forall k0, ended (ssr_handle_requests work k0) = ended k0 ++ [up]
  else snd r = Some BLK_STS_RESOURCE
       /\ ssr_wq (fst r) = ssr_wq k
       /\ ended (fst r) = ended k ++ [up].
Proof.
  intros Hv Hf r n. subst r n. split; [intros st; apply submit_segment_returns|].
  destruct (allocs_ok a) eqn:Ha.
  - destruct (allocs_ok_inv a Ha) as (X & Y & ->).
    rewrite (submit_queued up k bvec rest X Y Hv). cbn [fst snd ssr_wq ended].
    split; [reflexivity|]. split; [reflexivity|].
    exists (work_for up bvec (length (mem_map k))).
    repeat split. intros k0. apply handle_requests_ended.
  - destruct (submit_not_queued a up k (or_introl Ha)) as (extra & Hk).
    rewrite Hk, Hf. repeat split.
Qed.

(** A read of two sectors: the one work item covers the first 512 bytes. *)
Lemma submit_first_segment_only_witness :
  let r := ssr_submit_bio allocs_zero (request2 READ 2 0)
             (machine healthy healthy zero_page) in
  (forall st, exists res,
     submit_segment allocs_zero (request2 READ 2 0) READ (Bvec 0 SECTOR_SIZE 0)
       (BvecIter 2 0) st = Return res)
  /\ snd r = Some BLK_QC_T_NONE
  /\ ended (fst r) = []
  /\ exists work,
       ssr_wq (fst r) = [work]
       /\ bio_from_up work = request2 READ 2 0
       /\ bi_sector (data_bio_from_down work) = 2
       /\ bi_sector (crc32_bio_from_down work) = 2
       /\ bi_io_vec (data_bio_from_down work) = [Bvec 1 SECTOR_SIZE 0]
       /\ bi_io_vec (crc32_bio_from_down work) = [Bvec 2 SECTOR_SIZE 0]
       /\ forall k0, ended (ssr_handle_requests work k0) = ended k0 ++ [request2 READ 2 0].
Proof.
  apply (submit_first_segment_only allocs_zero (request2 READ 2 0)
           (machine healthy healthy zero_page)
           (Bvec 0 SECTOR_SIZE 0) [Bvec 0 SECTOR_SIZE SECTOR_SIZE]);
    reflexivity.
Defined.

(** C9, as claimed, fails when memory is short: the bio has a segment, the
    first [alloc_page] returns NULL, and no work is queued. *)
Lemma no_page_no_work :
  let up := request READ 2 0 in
  let k := machine healthy healthy zero_page in
  bi_io_vec up <> []
  /\ ssr_wq (fst (ssr_submit_bio allocs_no_page up k)) = []
  /\ snd (ssr_submit_bio allocs_no_page up k) = Some BLK_STS_RESOURCE
  /\ ended (fst (ssr_submit_bio allocs_no_page up k)) = [up].
Proof. split; [discriminate|]. repeat split. Qed.

End Claims.

(** * Further properties of the request path *)

Section Requests.
Local Open Scope nat_scope.
Import Scenario.

(** What [ssr_submit_bio] does, whatever the allocations give: it leaves
    the disks and the existing pages alone, and it queues one work item
    for the bio, or ends the bio, or stops in [__free_page] with the bio
    neither queued nor ended. *)
Lemma submit_effect (a : allocs) (up : bio) (k : kernel) :
  let r := ssr_submit_bio a up k in
  let k' := fst r in
  disk_vdb k' = disk_vdb k
  /\ disk_vdc k' = disk_vdc k
  /\ frames_kept (length (mem_map k)) (mem_map k) (mem_map k')
  /\ ((exists work, ssr_wq k' = ssr_wq k ++ [work] /\ bio_from_up work = up
                    /\ ended k' = ended k /\ snd r = Some BLK_QC_T_NONE
                    /\ submit_faults a up = false)
      \/ (ssr_wq k' = ssr_wq k /\ ended k' = ended k ++ [up]
          /\ snd r = Some BLK_STS_RESOURCE /\ submit_faults a up = false)
      \/ (ssr_wq k' = ssr_wq k /\ ended k' = ended k
          /\ snd r = None /\ submit_faults a up = true)).
Proof.
  intros r k'. subst r k'.
  destruct (request_cases a up) as [(bvec & rest & X & Y & Hv & ->)|H].
  - rewrite (submit_queued up k bvec rest X Y Hv).
    cbn [fst snd disk_vdb disk_vdc mem_map ssr_wq ended].
    repeat split; [apply frames_kept_app|]. left. eexists.
    repeat split. now apply (submit_faults_queued up bvec rest).
  - destruct (submit_not_queued a up k H) as (extra & ->).
    destruct (submit_faults a up); cbn;
      (repeat split; [apply frames_kept_app|]); right; [right|left]; auto.
Qed.

(** The worker ends the pending work in the order it was queued. *)
Lemma flush_effect (k : kernel) :
  ssr_wq (flush_workqueue k) = []
  /\ ended (flush_workqueue k) = ended k ++ (bio_from_up <$> ssr_wq k)
  /\ disk_vdb (flush_workqueue k) = disk_vdb k.
Proof.
  unfold flush_workqueue.
  remember (ssr_wq k) as q eqn:Hq. revert k Hq.
  induction q as [|work q IH]; intros k Hq.
  - cbn. rewrite <- Hq, app_nil_r. auto.
  - cbn [length]. rewrite Nat.iter_succ_r.
    assert (Hstep : worker_step k = ssr_handle_requests work (set_ssr_wq q k))
      by (unfold worker_step; now rewrite <- Hq).
    rewrite Hstep.
    destruct (handle_requests_ended work (set_ssr_wq q k)) as [He Hw].
    cbn [ssr_wq ended set_ssr_wq] in He, Hw.
    destruct (IH _ (eq_sym Hw)) as (IH1 & IH2 & IH3).
    rewrite IH1, IH2, IH3, He, handle_requests_vdb. cbn [fmap list_fmap].
    split; [reflexivity|]. split; [now rewrite <- app_assoc|reflexivity].
Qed.

(** X1. A bio without segments is never queued and never examined. When
    a [bio_alloc] fails it is ended at once, as it came, and
    [BLK_STS_RESOURCE] is returned. When both succeed the loop does not
    run and [ssrwork_failed] is reached with [crc32_page] never assigned:
    the call stops in [__free_page], and the bio is neither queued nor
    ended. *)
Theorem submit_empty_bio (a : allocs) (up : bio) (k : kernel) :
  bi_io_vec up = [] ->
  ssr_submit_bio a up k
  = if data_bio_ok a && crc32_bio_ok a
    then (k, None)
    else (bio_endio up k, Some BLK_STS_RESOURCE).
Proof.
  intros Hv. unfold ssr_submit_bio, bio_for_each_segment, data_page_fail.
  rewrite Hv. destruct (data_bio_ok a), (crc32_bio_ok a); reflexivity.
Qed.

Lemma submit_empty_bio_witness :
  ssr_submit_bio allocs_zero (Bio None WRITE 0 [] 0 BLK_STS_OK)
    (machine healthy healthy zero_page)
  = (machine healthy healthy zero_page, None).
Proof.
  apply (submit_empty_bio allocs_zero (Bio None WRITE 0 [] 0 BLK_STS_OK)
           (machine healthy healthy zero_page)).
  reflexivity.
Defined.

(** X2. Whatever the allocations give, [ssr_submit_bio] does no I/O and
    writes to no page that existed before the call, and it does one of
    three things. It queues one work item for the bio, leaves the bio
    pending and returns [BLK_QC_T_NONE]. Or it ends the bio, queues
    nothing and returns [BLK_STS_RESOURCE]. Or it stops in [__free_page]
    with the bio neither queued nor ended: that is exactly when both
    [bio_alloc] succeed and either the bio has no segment or the second
    [alloc_page] fails after the first succeeded. *)
Theorem submit_queues_or_ends (a : allocs) (up : bio) (k : kernel) :
  let r := ssr_submit_bio a up k in
  let k' := fst r in
  disk_vdb k' = disk_vdb k
  /\ disk_vdc k' = disk_vdc k
  /\ frames_kept (length (mem_map k)) (mem_map k) (mem_map k')
  /\ ((exists work, ssr_wq k' = ssr_wq k ++ [work] /\ bio_from_up work = up
                    /\ ended k' = ended k /\ snd r = Some BLK_QC_T_NONE
                    /\ submit_faults a up = false)
      \/ (ssr_wq k' = ssr_wq k /\ ended k' = ended k ++ [up]
          /\ snd r = Some BLK_STS_RESOURCE /\ submit_faults a up = false)
      \/ (ssr_wq k' = ssr_wq k /\ ended k' = ended k
          /\ snd r = None /\ submit_faults a up = true)).
Proof. apply submit_effect. Qed.

(** X3. The worker drains the queue: every pending work item is run, the
    bios are ended in the order in which they were queued, each with the
    status it was submitted with, and [/dev/vdb] is not written. *)
Theorem flush_ends_in_order (k : kernel) :
  ssr_wq (flush_workqueue k) = []
  /\ ended (flush_workqueue k) = ended k ++ (bio_from_up <$> ssr_wq k)
  /\ disk_vdb (flush_workqueue k) = disk_vdb k.
Proof. apply flush_effect. Qed.

Lemma submits_pending (reqs : list (allocs * bio)) (k : kernel) :
  ended (ssr_submits reqs k) ++ (bio_from_up <$> ssr_wq (ssr_submits reqs k))
  ≡ₚ ended k ++ (bio_from_up <$> ssr_wq k) ++ submitted reqs.
Proof.
  revert k. induction reqs as [|[a up] reqs IH]; intros k.
  - cbn. now rewrite app_nil_r.
  - cbn [ssr_submits fold_left fst snd]. fold (ssr_submits reqs (ssr_submit_bio a up k).1).
    rewrite IH. unfold submitted. cbn [List.filter fst snd].
    destruct (submit_effect a up k)
      as (_ & _ & _ & [(work & Hq & Hup & He & _ & Hf)|[(Hq & He & _ & Hf)|(Hq & He & _ & Hf)]]);
      rewrite Hq, He, Hf; cbn [negb fmap list_fmap snd].
    + rewrite fmap_app. cbn [fmap list_fmap]. rewrite Hup.
      rewrite <- !app_assoc. reflexivity.
    + rewrite <- !app_assoc. cbn [app].
      apply Permutation_app_head, Permutation_middle.
    + reflexivity.
Qed.

(** X4. No bio whose submission comes to its end is lost, and none is
    ended twice: after any bios have been submitted, whatever their
    allocations gave, and the worker has drained the queue, the bios
    ended since are exactly the bios that were pending and the bios
    submitted, each once, less those for which [ssr_submit_bio] stopped
    in [__free_page]; these are never ended. *)
Theorem every_bio_ended_once (reqs : list (allocs * bio)) (k : kernel) :
  let k' := flush_workqueue (ssr_submits reqs k) in
  ssr_wq k' = []
  /\ ended k' ≡ₚ ended k ++ (bio_from_up <$> ssr_wq k) ++ submitted reqs.
Proof.
  intros k'. subst k'.
  destruct (flush_effect (ssr_submits reqs k)) as (Hq & He & _).
  split; [exact Hq|]. rewrite He. apply submits_pending.
Qed.

End Requests.

(** ** The work function, step by step *)

Section WorkSteps.
Local Open Scope nat_scope.
Import Scenario.

Lemma region_splice (p src : list byte) (off : nat) :
  off + length src <= length p -> region (splice p off src) off (length src) = src.
Proof.
  intros H. unfold region, splice.
  rewrite drop_app_length' by (rewrite length_take; lia).
  now rewrite take_app_length'.
Qed.

(** What [process_device] does to the two pages of a work item: nothing
    when their checksums differ; otherwise it copies the checksum page
    onto the data page for a read, and the data page onto the checksum
    page for a write. *)
Lemma process_device_effect (up : bio) (bvec : bio_vec) (n : nat) (g : gendisk)
    (k : kernel) (X Y : list byte) :
  mem_map k !! n = Some X -> mem_map k !! S n = Some Y ->
  mem_map (process_device up (set_bi_disk g (lower_bio up bvec n))
             (set_bi_disk g (lower_bio up bvec (S n))) k)
  = if (Crc.crc32 0 (region X (bv_offset bvec) (bv_len bvec))
        =? Crc.crc32 0 (region Y (bv_offset bvec) (bv_len bvec)))%N
    then match bio_data_dir up with
         | READ => <[n := splice X (bv_offset bvec)
                            (region Y (bv_offset bvec) (bv_len bvec))]> (mem_map k)
         | WRITE => <[S n := splice Y (bv_offset bvec)
                               (region X (bv_offset bvec) (bv_len bvec))]> (mem_map k)
         end
    else mem_map k.
Proof.
  intros Hn HSn. unfold process_device, bio_for_each_segment. cbn.
  unfold process_segment, bio_iter_iovec. cbn. rewrite Hn, HSn.
  destruct (_ =? _)%N; cbn; [|reflexivity].
  unfold bio_data_dir. destruct (bi_opf up); cbn.
  - rewrite memcpy_self. unfold memcpy. now rewrite Hn, HSn.
  - rewrite memcpy_self. unfold memcpy. now rewrite Hn, HSn.
Qed.

(** It keeps the two pages in place and at their sizes. *)
Lemma process_device_sized (up : bio) (bvec : bio_vec) (n : nat) (g : gendisk)
    (k : kernel) (X Y : list byte) :
  bv_offset bvec + bv_len bvec <= length X ->
  bv_offset bvec + bv_len bvec <= length Y ->
  pages_sized X Y n (mem_map k) ->
  pages_sized X Y n (mem_map (process_device up (set_bi_disk g (lower_bio up bvec n))
                                (set_bi_disk g (lower_bio up bvec (S n))) k)).
Proof.
  intros HX HY (X' & Y' & Hn & HSn & HlX & HlY).
  rewrite (process_device_effect up bvec n g k X' Y' Hn HSn).
  destruct (_ =? _)%N; [|now exists X', Y'].
  destruct (bio_data_dir up).
  - exists (splice X' (bv_offset bvec) (region Y' (bv_offset bvec) (bv_len bvec))), Y'.
    split; [apply list_lookup_insert_eq; now apply lookup_lt_Some in Hn|].
    split; [rewrite list_lookup_insert_ne by lia; exact HSn|].
    split; [|exact HlY]. rewrite length_splice; [exact HlX|].
    rewrite length_region. lia.
  - exists X', (splice Y' (bv_offset bvec) (region X' (bv_offset bvec) (bv_len bvec))).
    split; [rewrite list_lookup_insert_ne by lia; exact Hn|].
    split; [apply list_lookup_insert_eq; now apply lookup_lt_Some in HSn|].
    split; [exact HlX|]. rewrite length_splice; [exact HlY|].
    rewrite length_region. lia.
Qed.

(** X5. [ssr_handle_requests] calls [process_device] twice on the same
    two pages, once per disk name; the second call changes nothing. On
    the work item that [ssr_submit_bio] builds, with its segment inside
    the two pages, [process_device] applied twice gives what it gives
    applied once. *)
Theorem process_device_twice (up : bio) (bvec : bio_vec) (n : nat) (k : kernel)
    (X Y : list byte) :
  mem_map k !! n = Some X ->
  mem_map k !! S n = Some Y ->
  bv_offset bvec + bv_len bvec <= length X ->
  bv_offset bvec + bv_len bvec <= length Y ->
  let data_bio := lower_bio up bvec n in
  let crc32_bio := lower_bio up bvec (S n) in
  process_device up (set_bi_disk VDC data_bio) (set_bi_disk VDC crc32_bio)
    (process_device up (set_bi_disk VDB data_bio) (set_bi_disk VDB crc32_bio) k)
  = process_device up (set_bi_disk VDB data_bio) (set_bi_disk VDB crc32_bio) k.
Proof.
  intros Hn HSn HX HY data_bio crc32_bio. subst data_bio crc32_bio.
  set (off := bv_offset bvec) in *. set (len := bv_len bvec) in *.
  assert (HlX : length (region X off len) = len) by (rewrite length_region; lia).
  assert (HlY : length (region Y off len) = len) by (rewrite length_region; lia).
  pose proof (process_device_effect up bvec n VDB k X Y Hn HSn) as H1.
  fold off len in H1.
  set (k1 := process_device up (set_bi_disk VDB _) (set_bi_disk VDB _) k) in *.
  assert (Hk : forall m, mem_map k1 = m ->
            process_device up (set_bi_disk VDC (lower_bio up bvec n))
              (set_bi_disk VDC (lower_bio up bvec (S n))) k1 = set_mem_map m k1
            -> process_device up (set_bi_disk VDC (lower_bio up bvec n))
                 (set_bi_disk VDC (lower_bio up bvec (S n))) k1 = k1).
  { intros m Hm ->. rewrite <- Hm. now destruct k1. }
  assert (Hshape : forall m,
            mem_map (process_device up (set_bi_disk VDC (lower_bio up bvec n))
                       (set_bi_disk VDC (lower_bio up bvec (S n))) k1) = m ->
            process_device up (set_bi_disk VDC (lower_bio up bvec n))
              (set_bi_disk VDC (lower_bio up bvec (S n))) k1 = set_mem_map m k1).
  { intros m <-. reflexivity. }
  apply (Hk (mem_map k1) eq_refl), Hshape.
  destruct (Crc.crc32 0 (region X off len) =? Crc.crc32 0 (region Y off len))%N eqn:Hcrc.
  - destruct (bio_data_dir up) eqn:Hdir.
    + assert (Hn1 : mem_map k1 !! n = Some (splice X off (region Y off len)))
        by (rewrite H1; apply list_lookup_insert_eq; now apply lookup_lt_Some in Hn).
      assert (HSn1 : mem_map k1 !! S n = Some Y)
        by (rewrite H1, list_lookup_insert_ne by lia; exact HSn).
      rewrite (process_device_effect up bvec n VDC k1 _ _ Hn1 HSn1). fold off len.
      rewrite Hdir. rewrite <- HlY at 2. rewrite region_splice by lia.
      rewrite N.eqb_refl. rewrite splice_splice by lia.
      rewrite H1. apply list_insert_insert_eq.
    + assert (Hn1 : mem_map k1 !! n = Some X)
        by (rewrite H1, list_lookup_insert_ne by lia; exact Hn).
      assert (HSn1 : mem_map k1 !! S n = Some (splice Y off (region X off len)))
        by (rewrite H1; apply list_lookup_insert_eq; now apply lookup_lt_Some in HSn).
      rewrite (process_device_effect up bvec n VDC k1 _ _ Hn1 HSn1). fold off len.
      rewrite Hdir. rewrite <- HlX at 3. rewrite region_splice by lia.
      rewrite N.eqb_refl. rewrite splice_splice by lia.
      rewrite H1. apply list_insert_insert_eq.
  - assert (Hn1 : mem_map k1 !! n = Some X) by (rewrite H1; exact Hn).
    assert (HSn1 : mem_map k1 !! S n = Some Y) by (rewrite H1; exact HSn).
    rewrite (process_device_effect up bvec n VDC k1 _ _ Hn1 HSn1). fold off len.
    now rewrite Hcrc.
Qed.

End WorkSteps.

(** ** What a read fetches, and what happens past the end of the disk *)

Section ReadPath.
Local Open Scope nat_scope.
Import Scenario.

Lemma process_device_twice_witness :
  let k := Kernel [pattern_page; stale_page; stale_page] blank blank [] [] in
  let up := request WRITE 2 0 in
  let data_bio := lower_bio up (Bvec 0 SECTOR_SIZE 0) 1 in
  let crc32_bio := lower_bio up (Bvec 0 SECTOR_SIZE 0) 2 in
  process_device up (set_bi_disk VDC data_bio) (set_bi_disk VDC crc32_bio)
    (process_device up (set_bi_disk VDB data_bio) (set_bi_disk VDB crc32_bio) k)
  = process_device up (set_bi_disk VDB data_bio) (set_bi_disk VDB crc32_bio) k.
Proof.
  apply (process_device_twice (request WRITE 2 0) (Bvec 0 SECTOR_SIZE 0) 1
           (Kernel [pattern_page; stale_page; stale_page] blank blank [] [])
           stale_page stale_page);
    try reflexivity; vm_compute; lia.
Defined.

(** A read of one segment from [/dev/vdc]. *)
Lemma submit_read_one (b : bio) (k : kernel) (v : bio_vec) (p : list byte) :
  bi_disk b = Some VDC -> bi_opf b = READ -> bi_io_vec b = [v] ->
  mem_map k !! bv_page v = Some p ->
  bi_sector b * SECTOR_SIZE + bv_len v <= length (disk_vdc k) ->
  fst (submit_bio_wait b k)
  = set_mem_map (<[bv_page v := splice p (bv_offset v)
                     (region (disk_vdc k) (bi_sector b * SECTOR_SIZE) (bv_len v))]>
                   (mem_map k)) k.
Proof.
  intros Hg Hop Hv Hp Hin. unfold submit_bio_wait, bi_size. rewrite Hg, Hop, Hv.
  cbn [fmap list_fmap sum_list disk_of xfer_read]. rewrite Nat.add_0_r, Hp.
  now rewrite decide_True by exact Hin.
Qed.

(** A bio that reaches past the end of its disk transfers nothing. *)
Lemma submit_beyond_end (b : bio) (k : kernel) (g : gendisk) :
  bi_disk b = Some g ->
  length (disk_of g k) < bi_sector b * SECTOR_SIZE + bi_size b ->
  submit_bio_wait b k = (k, (- EIO)%Z).
Proof.
  intros Hg Hout. unfold submit_bio_wait. rewrite Hg.
  now rewrite decide_False by lia.
Qed.

(** X6. A read on the idle device whose segment fits the new pages and
    the disk fetches the same bytes twice: afterwards each of the two
    pages the driver allocated holds, at the offset of the segment, the
    bytes of [/dev/vdc] at the sector of the request. [/dev/vdb] is not
    read, and nothing is compared with a stored checksum. *)
Theorem read_fetches_vdc_twice (up : bio) (k : kernel) (bvec : bio_vec)
    (rest : list bio_vec) (X Y : list byte) :
  ssr_wq k = [] ->
  bi_io_vec up = bvec :: rest ->
  bio_data_dir up = READ ->
  bv_offset bvec + bv_len bvec <= length X ->
  bv_offset bvec + bv_len bvec <= length Y ->
  bi_sector up * SECTOR_SIZE + bv_len bvec <= length (disk_vdc k) ->
  let k' := ssr_request (Allocs true true (Some X) (Some Y) true) up k in
  let n := length (mem_map k) in
  let fetched := region (disk_vdc k) (bi_sector up * SECTOR_SIZE) (bv_len bvec) in
  exists P Q,
    mem_map k' !! n = Some P
    /\ mem_map k' !! S n = Some Q
    /\ region P (bv_offset bvec) (bv_len bvec) = fetched
    /\ region Q (bv_offset bvec) (bv_len bvec) = fetched.
Proof.
  intros Hq Hv Hdir HX HY Hin k' n fetched. subst k' n fetched.
  rewrite (request_queued up k bvec rest X Y Hq Hv).
  set (n := length (mem_map k)). set (off := bv_offset bvec) in *.
  set (len := bv_len bvec) in *. set (pos := bi_sector up * SECTOR_SIZE) in *.
  set (k0 := Kernel (mem_map k ++ [X; Y]) (disk_vdb k) (disk_vdc k) [] (ended k)).
  assert (H0 : pages_sized X Y n (mem_map k0)).
  { exists X, Y. cbn [mem_map k0]. repeat split.
    - rewrite lookup_app_r by (unfold n; lia). unfold n. now rewrite Nat.sub_diag.
    - rewrite lookup_app_r by (unfold n; lia).
      now replace (S n - length (mem_map k)) with 1 by (unfold n; lia). }
  unfold ssr_handle_requests, bio_endio. cbn [mem_map].
  cbn [bio_from_up data_bio_from_down crc32_bio_from_down work_for].
  pose proof (process_device_sized up bvec n VDB k0 X Y HX HY H0) as H1.
  set (k1 := process_device up _ _ k0) in *.
  pose proof (process_device_sized up bvec n VDC k1 X Y HX HY H1) as H2.
  change (set_bi_disk VDC (set_bi_disk VDB (lower_bio up bvec n)))
    with (set_bi_disk VDC (lower_bio up bvec n)).
  change (set_bi_disk VDC (set_bi_disk VDB (lower_bio up bvec (S n))))
    with (set_bi_disk VDC (lower_bio up bvec (S n))).
  set (k2 := process_device up _ _ k1) in *.
  assert (Hd2 : disk_vdc k2 = disk_vdc k) by reflexivity.
  destruct H2 as (X' & Y' & Hn & HSn & HlX & HlY).
  assert (Hlen : length (region (disk_vdc k) pos len) = len)
    by (rewrite length_region; lia).
  rewrite (submit_read_one (set_bi_disk VDC (lower_bio up bvec (S n))) k2
             (Bvec (S n) len off) Y')
    by (auto; try apply Hdir; rewrite Hd2; exact Hin).
  cbn [bi_sector set_bi_disk lower_bio bv_len bv_offset bv_page]. rewrite Hd2.
  rewrite (submit_read_one (set_bi_disk VDC (lower_bio up bvec n)) _
             (Bvec n len off) X');
    [|reflexivity|apply Hdir|reflexivity| |exact Hin].
  2:{ cbn [mem_map set_mem_map bv_page]. rewrite list_lookup_insert_ne by lia. exact Hn. }
  cbn [bi_sector set_bi_disk lower_bio bv_len bv_offset bv_page mem_map set_mem_map
       disk_vdc].
  fold pos. rewrite Hd2.
  eexists _, _. split; [|split].
  - apply list_lookup_insert_eq. rewrite length_insert. now apply lookup_lt_Some in Hn.
  - rewrite list_lookup_insert_ne by lia. apply list_lookup_insert_eq.
    now apply lookup_lt_Some in HSn.
  - split.
    + rewrite <- Hlen at 2. apply region_splice. lia.
    + rewrite <- Hlen at 2. apply region_splice. lia.
Qed.

Lemma read_fetches_vdc_twice_witness :
  let k := machine blank healthy zero_page in
  let k' := ssr_request allocs_zero (request READ 2 0) k in
  exists P Q,
    mem_map k' !! 1 = Some P
    /\ mem_map k' !! 2 = Some Q
    /\ region P 0 SECTOR_SIZE = region (disk_vdc k) (2 * SECTOR_SIZE) SECTOR_SIZE
    /\ region Q 0 SECTOR_SIZE = region (disk_vdc k) (2 * SECTOR_SIZE) SECTOR_SIZE.
Proof.
  apply (read_fetches_vdc_twice (request READ 2 0) (machine blank healthy zero_page)
           (Bvec 0 SECTOR_SIZE 0) [] zero_page zero_page);
    try reflexivity; vm_compute; lia.
Defined.

(** X7. The results of the two [submit_bio_wait] are dropped: a request
    whose allocations succeed and whose first segment reaches past the end
    of [/dev/vdc] transfers nothing to or from either disk, and is still
    ended once, with the status it was submitted with. *)
Theorem request_beyond_end_of_disk (a : allocs) (up : bio) (k : kernel)
    (bvec : bio_vec) (rest : list bio_vec) :
  ssr_wq k = [] ->
  allocs_ok a = true ->
  bi_io_vec up = bvec :: rest ->
  length (disk_vdc k) < bi_sector up * SECTOR_SIZE + bv_len bvec ->
  let k' := ssr_request a up k in
  disk_vdb k' = disk_vdb k
  /\ disk_vdc k' = disk_vdc k
  /\ ended k' = ended k ++ [up].
Proof.
  intros Hq Ha Hv Hout k'. subst k'.
  destruct (allocs_ok_inv a Ha) as (X & Y & ->).
  split; [apply request_vdb, Hq|]. split.
  - rewrite (request_queued up k bvec rest X Y Hq Hv).
    unfold ssr_handle_requests, bio_endio. cbn [disk_vdc].
    cbn [bio_from_up data_bio_from_down crc32_bio_from_down work_for].
    assert (Hout' : length (disk_vdc k) < bi_sector up * SECTOR_SIZE + (bv_len bvec + 0))
      by lia.
    set (k1 := process_device up (set_bi_disk VDB _) (set_bi_disk VDB _) _).
    set (k2 := process_device up _ _ k1).
    rewrite (submit_beyond_end
               (set_bi_disk VDC (set_bi_disk VDB (lower_bio up bvec (S (length (mem_map k))))))
               k2 VDC eq_refl Hout').
    cbn [fst].
    rewrite (submit_beyond_end
               (set_bi_disk VDC (set_bi_disk VDB (lower_bio up bvec (length (mem_map k)))))
               k2 VDC eq_refl Hout').
    reflexivity.
  - rewrite (proj1 (request_ended _ up k Hq)).
    now rewrite (submit_faults_queued up bvec rest X Y Hv).
Qed.

Lemma request_beyond_end_of_disk_witness :
  let k := machine healthy healthy pattern_page in
  let k' := ssr_request allocs_stale (request WRITE 5 0) k in
  disk_vdb k' = disk_vdb k
  /\ disk_vdc k' = disk_vdc k
  /\ ended k' = ended k ++ [request WRITE 5 0].
Proof.
  apply (request_beyond_end_of_disk allocs_stale (request WRITE 5 0)
           (machine healthy healthy pattern_page) (Bvec 0 SECTOR_SIZE 0) []);
    try reflexivity. vm_compute. lia.
Defined.

End ReadPath.

(** * Loading and unloading the module *)

Section Loading.
Local Open Scope Z_scope.
Import Lifecycle Scenario.

Ltac run_init :=
  cbn; rewrite ?enomem_negative, ?zero_not_negative; cbn.

(** X8. [create_block_device] returns 0 exactly when [blk_alloc_queue]
    and [alloc_disk] both succeed; it then holds the queue, the gendisk
    and its registration, with the logical block size set to
    [KERNEL_SECTOR_SIZE] and the capacity to [LOGICAL_DISK_SECTORS].
    Otherwise it returns [-ENOMEM] and holds nothing more than before:
    the queue it got is cleaned up when [alloc_disk] fails. *)
Theorem create_block_device_result (cap : nat) (e : boot) (d : driver) :
  let r := create_block_device cap e d in
  dev_size (fst r) = LOGICAL_DISK_SIZE cap
  /\ misused (fst r) = misused d
  /\ if queue_ok e && disk_ok e
     then snd r = 0
          /\ held (fst r) = DiskAdded :: Gendisk :: RequestQueue :: held d
          /\ logical_block_size (fst r) = Some KERNEL_SECTOR_SIZE
          /\ disk_capacity (fst r) = Some cap
     else snd r = - ENOMEM /\ held (fst r) = held d.
Proof.
  unfold create_block_device.
  destruct (queue_ok e), (disk_ok e); cbn -[LOGICAL_DISK_SIZE KERNEL_SECTOR_SIZE];
    repeat split.
Qed.

(** X9. [delete_block_device] gives back exactly what a successful
    [create_block_device] took, in the reverse order, and nothing that
    was not held. *)
Theorem create_then_delete (cap : nat) (e : boot) (d : driver) :
  snd (create_block_device cap e d) = 0 ->
  held (delete_block_device (fst (create_block_device cap e d))) = held d
  /\ misused (delete_block_device (fst (create_block_device cap e d))) = misused d.
Proof.
  unfold create_block_device.
  destruct (queue_ok e), (disk_ok e); cbn -[LOGICAL_DISK_SIZE KERNEL_SECTOR_SIZE];
    try discriminate.
  intros _. split; reflexivity.
Qed.

Lemma create_then_delete_witness :
  let e := Boot true 0 true true true true in
  let d := unloaded (machine healthy healthy zero_page) in
  held (delete_block_device (fst (create_block_device capacity e d))) = held d
  /\ misused (delete_block_device (fst (create_block_device capacity e d))) = misused d.
Proof.
  apply (create_then_delete capacity (Boot true 0 true true true true)
           (unloaded (machine healthy healthy zero_page))).
  reflexivity.
Defined.

(** X10. [ssr_init] returns 0 exactly when every step succeeds, and a
    negative value otherwise: [-ENOMEM] when the workqueue, the request
    queue or the gendisk cannot be had, the result of [register_blkdev]
    when that is negative, and [-EINVAL] when a physical disk cannot be
    opened. *)
Theorem ssr_init_result (cap : nat) (e : boot) (d : driver) :
  let err := snd (ssr_init cap e d) in
  (err = 0 <-> boot_ok e = true)
  /\ (err <> 0 ->
      err < 0
      /\ (err = - ENOMEM \/ err = register_blkdev_ret e \/ err = - EINVAL)).
Proof.
  unfold ssr_init, boot_ok, create_block_device, out_vdb_open_disk, out_block_device,
    out_register_blkdev, ENOMEM, EINVAL.
  destruct e as [wq reg q dk vb vc]. cbn [wq_ok register_blkdev_ret queue_ok disk_ok vdb_ok vdc_ok].
  destruct wq; cbn [negb andb fst snd];
    [|split; [split; discriminate|intros _; split; [lia|now left]]].
  destruct (Z.ltb_spec reg 0) as [Hneg|Hpos].
  { rewrite (proj2 (Z.leb_gt 0 reg)) by lia. cbn [negb andb fst snd].
    split; [split; [lia|discriminate]|intros _; split; [lia|right; now left]]. }
  rewrite (proj2 (Z.leb_le 0 reg)) by lia.
  destruct q, dk, vb, vc; run_init;
    (split; [split; (reflexivity || discriminate)|]);
    intros H; try (now contradiction H); (split; [lia|]); auto.
Qed.

Lemma ssr_init_result_witness :
  let err := snd (ssr_init capacity (Boot true 0 true true false true)
                    (unloaded (machine healthy healthy zero_page))) in
  err < 0 /\ (err = - ENOMEM \/ err = 0 \/ err = - EINVAL).
Proof.
  apply (proj2 (ssr_init_result capacity (Boot true 0 true true false true)
                  (unloaded (machine healthy healthy zero_page)))).
  vm_compute. discriminate.
Defined.

(** X11. A failed [ssr_init] leaves nothing behind: on every failure
    path the module holds exactly what it held before the call, it gave
    nothing back that it did not hold, and the request path is
    untouched. *)
Theorem ssr_init_all_or_nothing (cap : nat) (e : boot) (d : driver) :
  snd (ssr_init cap e d) <> 0 ->
  held (fst (ssr_init cap e d)) = held d
  /\ misused (fst (ssr_init cap e d)) = misused d
  /\ io (fst (ssr_init cap e d)) = io d.
Proof.
  unfold ssr_init, create_block_device, ENOMEM, EINVAL.
  destruct e as [wq reg q dk vb vc]. cbn [wq_ok register_blkdev_ret queue_ok disk_ok vdb_ok vdc_ok].
  destruct wq; cbn; [|auto].
  destruct (reg <? 0) eqn:Hreg; [intros _; cbn; auto|].
  destruct q, dk, vb, vc; run_init; intros H; try (now contradiction H); auto.
Qed.

Lemma ssr_init_all_or_nothing_witness :
  let e := Boot true 0 true true true false in
  let d := unloaded (machine healthy healthy zero_page) in
  held (fst (ssr_init capacity e d)) = held d
  /\ misused (fst (ssr_init capacity e d)) = misused d
  /\ io (fst (ssr_init capacity e d)) = io d.
Proof.
  apply (ssr_init_all_or_nothing capacity (Boot true 0 true true true false)
           (unloaded (machine healthy healthy zero_page))).
  vm_compute. discriminate.
Defined.

(** X12. A successful [ssr_init] holds the workqueue, the major number,
    the request queue, the gendisk and its registration and the two
    physical disks, and nothing else new; the logical device has the
    capacity [LOGICAL_DISK_SECTORS] and the logical block size
    [KERNEL_SECTOR_SIZE]. *)
Theorem ssr_init_loaded (cap : nat) (e : boot) (d : driver) :
  boot_ok e = true ->
  let d' := fst (ssr_init cap e d) in
  held d' = all_resources ++ held d
  /\ misused d' = misused d
  /\ disk_capacity d' = Some cap
  /\ logical_block_size d' = Some KERNEL_SECTOR_SIZE
  /\ dev_size d' = LOGICAL_DISK_SIZE cap
  /\ io d' = io d.
Proof.
  unfold boot_ok. destruct e as [[] reg [] [] [] []]; cbn; try discriminate;
    try (rewrite ?andb_false_r; discriminate).
  rewrite !andb_true_r. intros Hreg. apply Z.leb_le in Hreg.
  unfold ssr_init, create_block_device, ENOMEM, EINVAL. cbn.
  rewrite (proj2 (Z.ltb_ge reg 0)) by lia. run_init. repeat split.
Qed.

Lemma ssr_init_loaded_witness :
  let d := unloaded (machine healthy healthy zero_page) in
  let d' := fst (ssr_init capacity (Boot true 0 true true true true) d) in
  held d' = all_resources ++ held d
  /\ misused d' = misused d
  /\ disk_capacity d' = Some capacity
  /\ logical_block_size d' = Some KERNEL_SECTOR_SIZE
  /\ dev_size d' = LOGICAL_DISK_SIZE capacity
  /\ io d' = io d.
Proof.
  apply (ssr_init_loaded capacity (Boot true 0 true true true true)
           (unloaded (machine healthy healthy zero_page))).
  reflexivity.
Defined.

(** X13. [ssr_exit] undoes a successful [ssr_init], whatever the request
    path did in between: the module holds what it held before it was
    loaded and gave nothing back twice, and before the workqueue is
    destroyed the pending work is run, each pending bio being ended in
    the order of the queue. *)
Theorem ssr_init_then_exit (cap : nat) (e : boot) (d : driver) (k : kernel) :
  boot_ok e = true ->
  let d' := ssr_exit (set_io k (fst (ssr_init cap e d))) in
  held d' = held d
  /\ misused d' = misused d
  /\ ssr_wq (io d') = []
  /\ ended (io d') = ended k ++ (bio_from_up <$> ssr_wq k).
Proof.
  unfold boot_ok. destruct e as [[] reg [] [] [] []]; cbn; try discriminate;
    try (rewrite ?andb_false_r; discriminate).
  rewrite !andb_true_r. intros Hreg. apply Z.leb_le in Hreg.
  unfold ssr_init, create_block_device, ENOMEM, EINVAL. cbn.
  rewrite (proj2 (Z.ltb_ge reg 0)) by lia. run_init.
  destruct (flush_effect k) as (Hq & He & _).
  repeat split; assumption.
Qed.

Lemma ssr_init_then_exit_witness :
  let d := unloaded (machine healthy healthy zero_page) in
  let k := fst (ssr_submit_bio allocs_zero (request READ 2 0)
                  (machine healthy healthy zero_page)) in
  let d' := ssr_exit (set_io k (fst (ssr_init capacity (Boot true 0 true true true true) d))) in
  held d' = held d
  /\ misused d' = misused d
  /\ ssr_wq (io d') = []
  /\ ended (io d') = ended k ++ (bio_from_up <$> ssr_wq k).
Proof.
  apply (ssr_init_then_exit capacity (Boot true 0 true true true true)
           (unloaded (machine healthy healthy zero_page))).
  reflexivity.
Defined.

End Loading.
